(** * I-Tech static scripts: [static/js/admin.js] and [static/js/flash.js]

    A shallow embedding of the two browser scripts of the repository and the
    properties their description states about them.

    Both scripts are straight-line DOM code, so the embedding is a small
    state monad over a [world]: the element store of the page, the log of
    what the page showed to or sent for the user, a clock, the queue of
    pending timers and the registered event listeners.  The browser
    primitives the scripts call ([prompt], [createElement], [appendChild],
    [submit], [addEventListener], [querySelectorAll], [setTimeout], ...) are
    modelled once in [Module Browser]; the scripts themselves are
    transcribed line by line in [Module Admin] and [Module Flash].

    Time is ideal: a listener or callback runs in no time, and timers fire
    in the order in which they are due.  Delays are what [setTimeout] makes
    of its argument, a 32-bit signed integer. *)

From stdpp Require Import gmap strings list fin_maps sorting.
From Stdlib Require Import ZArith Ascii.

Local Open Scope string_scope.
Local Open Scope list_scope.
Local Open Scope stdpp_scope.

(** ** Browser model *)

Module Browser.

(** JavaScript values the scripts branch on: [prompt] returns a string or
    [null]. *)
Inductive value : Type :=
  | Null
  | Str (s : string).

(** [if (v)]: [null] and the empty string are falsy, every other string is
    truthy. *)
Definition ToBoolean (v : value) : bool :=
  match v with
  | Null => false
  | Str EmptyString => false
  | Str (String _ _) => true
  end.

Definition ToString (v : value) : string :=
  match v with
  | Null => "null"
  | Str s => s
  end.

(** Element objects live in a store and are referred to by reference, so
    that the same element can be reached through a variable of the script
    and through its parent. *)
Abbreviation node := nat.

Record element : Type := Element {
  tagName : string;
  props : gmap string string;     (* method, action, type, name, value, ... *)
  classList : list string;        (* ordered set of class tokens *)
  style : gmap string string;     (* inline style declarations *)
  parentNode : option node;
  childNodes : list node
}.

Record document : Type := Document {
  store : gmap node element;
  documentElement : node;
  body : node
}.

(** What the page did towards the user and the server. *)
Inductive event : Type :=
  | Prompted (message : string)
  | Submitted (form : node) (method action : string)
              (entries : list (string * string)).

(** The two arrow functions handed to [setTimeout] by flash.js, as closures
    over the variable [flash] they capture. *)
Inductive callback : Type :=
  | RevealFlash (flash : node)   (* () => flash.classList.add('show') *)
  | HideFlash (flash : node).    (* () => flash.style.display = 'none' *)

Record timer : Type := Timer {
  fire_at : Z;                    (* absolute time, in milliseconds *)
  handler : callback
}.

(** The arrow function flash.js registers for [DOMContentLoaded]; it
    captures nothing. *)
Inductive listener : Type :=
  | InitFlashes.

Record world : Type := World {
  doc : document;
  log : list event;
  now : Z;
  queue : list timer;             (* pending timers, in firing order *)
  listeners : list (string * listener)   (* event type, listener *)
}.

#[global] Instance value_eq_dec : EqDecision value.
Proof. solve_decision. Defined.
#[global] Instance element_eq_dec : EqDecision element.
Proof. solve_decision. Defined.
#[global] Instance callback_eq_dec : EqDecision callback.
Proof. solve_decision. Defined.
#[global] Instance timer_eq_dec : EqDecision timer.
Proof. solve_decision. Defined.

(** *** Field updates *)

Definition with_store (f : gmap node element → gmap node element)
    (w : world) : world :=
  {| doc := {| store := f (store (doc w));
               documentElement := documentElement (doc w);
               body := body (doc w) |};
     log := log w; now := now w; queue := queue w; listeners := listeners w |}.

Definition with_log (f : list event → list event) (w : world) : world :=
  {| doc := doc w; log := f (log w); now := now w; queue := queue w;
     listeners := listeners w |}.

Definition with_queue (f : list timer → list timer) (w : world) : world :=
  {| doc := doc w; log := log w; now := now w; queue := f (queue w);
     listeners := listeners w |}.

Definition with_now (t : Z) (w : world) : world :=
  {| doc := doc w; log := log w; now := t; queue := queue w;
     listeners := listeners w |}.

Definition with_listeners
    (f : list (string * listener) → list (string * listener)) (w : world) : world :=
  {| doc := doc w; log := log w; now := now w; queue := queue w;
     listeners := f (listeners w) |}.

Definition set_prop (k v : string) (e : element) : element :=
  {| tagName := tagName e; props := <[k:=v]> (props e);
     classList := classList e; style := style e;
     parentNode := parentNode e; childNodes := childNodes e |}.

Definition set_classList (l : list string) (e : element) : element :=
  {| tagName := tagName e; props := props e;
     classList := l; style := style e;
     parentNode := parentNode e; childNodes := childNodes e |}.

Definition set_style (k v : string) (e : element) : element :=
  {| tagName := tagName e; props := props e;
     classList := classList e; style := <[k:=v]> (style e);
     parentNode := parentNode e; childNodes := childNodes e |}.

Definition set_parentNode (p : option node) (e : element) : element :=
  {| tagName := tagName e; props := props e;
     classList := classList e; style := style e;
     parentNode := p; childNodes := childNodes e |}.

Definition set_childNodes (l : list node) (e : element) : element :=
  {| tagName := tagName e; props := props e;
     classList := classList e; style := style e;
     parentNode := parentNode e; childNodes := l |}.

(** *** Scripts

    A script reads the user's answers (what [prompt] returns for a given
    message) and transforms the world. *)
Definition script (A : Type) : Type := (string → value) → world → A * world.

#[global] Instance script_ret : MRet script := λ A a _ w, (a, w).
#[global] Instance script_bind : MBind script := λ A B k m user w,
  let '(a, w') := m user w in k a user w'.

Definition exec {A} (m : script A) (user : string → value) (w : world) : world :=
  snd (m user w).

Definition modify (f : world → world) : script unit := λ _ w, (tt, f w).

(** *** Window and document primitives *)

(** [prompt(message)]: shows the dialog and returns the user's answer. *)
Definition prompt (message : string) : script value := λ user w,
  (user message, with_log (λ l, l ++ [Prompted message]) w).

(** [document.createElement(tag)]: a new element, not yet in the tree. *)
Definition createElement (tag : string) : script node := λ _ w,
  let n := fresh (dom (store (doc w))) in
  (n, with_store (insert n (Element tag ∅ [] ∅ None [])) w).

(** [el.k = v] for a reflected property. *)
Definition setProperty (n : node) (k v : string) : script unit :=
  modify (with_store (alter (set_prop k v) n)).

(** [parent.appendChild(child)]: [child] leaves its former parent, if any,
    and becomes the last child of [parent]. *)
Definition detach (child : node) (st : gmap node element) : gmap node element :=
  match st !! child ≫= parentNode with
  | Some q =>
      alter (λ e, set_childNodes (filter (λ c, c ≠ child) (childNodes e)) e) q st
  | None => st
  end.

Definition appendChild (parent child : node) : script unit :=
  modify (with_store (λ st,
    alter (set_parentNode (Some parent)) child
      (alter (λ e, set_childNodes (childNodes e ++ [child]) e) parent
         (detach child st)))).

Definition document_body : script node := λ _ w, (body (doc w), w).

(** The entry list of a form: one [(name, value)] pair for every input
    child that has a non-empty name. *)
Definition entry_of (st : gmap node element) (c : node) : list (string * string) :=
  match st !! c with
  | Some e =>
      if bool_decide (tagName e = "input") then
        match props e !! "name" with
        | Some (String a s) => [(String a s, default "" (props e !! "value"))]
        | _ => []
        end
      else []
  | None => []
  end.

Definition form_entries (st : gmap node element) (f : element) : list (string * string) :=
  flat_map (entry_of st) (childNodes f).

(** [form.submit()]: the request, with the form's method, action and entry
    list, leaves the page. *)
Definition submit (form : node) : script unit := λ _ w,
  match store (doc w) !! form with
  | Some f =>
      (tt, with_log (λ l, l ++ [Submitted form
                                  (default "GET" (props f !! "method"))
                                  (default "" (props f !! "action"))
                                  (form_entries (store (doc w)) f)]) w)
  | None => (tt, w)
  end.

(** [el.classList.add(token)]: the token list is an ordered set, so a token
    that is already present is not added again. *)
Definition add_token (token : string) (l : list string) : list string :=
  if bool_decide (token ∈ l) then l else l ++ [token].

Definition classList_add (n : node) (token : string) : script unit :=
  modify (with_store (alter (λ e, set_classList (add_token token (classList e)) e) n)).

(** [el.style.k = v]. *)
Definition style_set (n : node) (k v : string) : script unit :=
  modify (with_store (alter (set_style k v) n)).

(** Tree order: an element comes before its children, children in order.
    The recursion is on the number of elements of the store, which bounds
    the height of any tree made of them. *)
Fixpoint descendants (fuel : nat) (st : gmap node element) (n : node) : list node :=
  match fuel with
  | O => []
  | S fuel' =>
      match st !! n with
      | Some e => n :: flat_map (descendants fuel' st) (childNodes e)
      | None => []
      end
  end.

Definition document_order (d : document) : list node :=
  descendants (size (store d)) (store d) (documentElement d).

(** Selectors: the scripts only use a single class selector, [.name]. *)
Definition matches (selector : string) (e : element) : bool :=
  match selector with
  | String "."%char name => bool_decide (name ∈ classList e)
  | _ => false
  end.

Definition selects (selector : string) (st : gmap node element) (n : node) : bool :=
  match st !! n with
  | Some e => matches selector e
  | None => false
  end.

Definition select_all (selector : string) (d : document) : list node :=
  filter (λ n, selects selector (store d) n) (document_order d).

(** [document.querySelectorAll(selector)]: a static list, in tree order. *)
Definition querySelectorAll (selector : string) : script (list node) := λ _ w,
  (select_all selector (doc w), w).

(** [document.addEventListener(type, listener)]. *)
Definition addEventListener (type : string) (l : listener) : script unit :=
  modify (with_listeners (λ ls, ls ++ [(type, l)])).

(** [list.forEach((x, i) => body)]. *)
Fixpoint forEach_from {A} (i : nat) (l : list A) (body : A → nat → script unit)
    : script unit :=
  match l with
  | [] => mret tt
  | x :: l' => body x i;; forEach_from (S i) l' body
  end.

Definition forEach {A} (l : list A) (body : A → nat → script unit) : script unit :=
  forEach_from 0 l body.

(** *** Timers

    The queue is kept in firing order: earliest first, and among timers due
    at the same time the one that was set first. *)
Fixpoint enqueue (t : timer) (q : list timer) : list timer :=
  match q with
  | [] => [t]
  | u :: q' =>
      if decide (fire_at t < fire_at u)%Z then t :: u :: q' else u :: enqueue t q'
  end.

(** The delay argument of [setTimeout] is a 32-bit signed integer (a
    [long]): a number outside that range wraps around modulo 2^32. *)
Definition to_long (z : Z) : Z :=
  ((z + 2147483648) mod 4294967296 - 2147483648)%Z.

(** The time a timer waits: the converted delay, a negative one counting
    as 0. *)
Definition timeout_ms (delay : Z) : Z := Z.max 0 (to_long delay).

(** [setTimeout(cb, delay)]: due [timeout_ms delay] milliseconds from now. *)
Definition setTimeout (cb : callback) (delay : Z) : script unit :=
  modify (λ w, with_queue (enqueue (Timer (now w + timeout_ms delay) cb)) w).

(** Running a callback: the bodies of the two arrow functions. *)
Definition call (cb : callback) : script unit :=
  match cb with
  | RevealFlash flash => classList_add flash "show"
  | HideFlash flash => style_set flash "display" "none"
  end.

(** One turn of the event loop: the first pending timer fires. *)
Definition tick (user : string → value) (w : world) : option world :=
  match queue w with
  | [] => None
  | t :: q =>
      Some (exec (call (handler t)) user
              (with_now (Z.max (now w) (fire_at t)) (with_queue (λ _, q) w)))
  end.

(** The world after [k] timers have fired (or all of them, if fewer were
    pending). *)
Fixpoint run (k : nat) (user : string → value) (w : world) : world :=
  match k with
  | O => w
  | S k' =>
      match tick user w with
      | Some w' => run k' user w'
      | None => w
      end
  end.

(** What a fired callback does to the element store. *)
Definition effect (cb : callback) (st : gmap node element) : gmap node element :=
  match cb with
  | RevealFlash flash =>
      alter (λ e, set_classList (add_token "show" (classList e)) e) flash st
  | HideFlash flash => alter (set_style "display" "none") flash st
  end.

(** The store and the clock once the timers [ts] have fired, in order. *)
Definition fired (ts : list timer) (st : gmap node element) : gmap node element :=
  foldl (λ st t, effect (handler t) st) st ts.

Definition clock_after (ts : list timer) (t0 : Z) : Z :=
  foldl (λ t u, Z.max t (fire_at u)) t0 ts.

(** What the callbacks of [ts] leave of element [e] with reference [n]. *)
Definition touched (ts : list timer) (n : node) (e : element) : element :=
  let e1 := if bool_decide (RevealFlash n ∈ handler <$> ts)
            then set_classList (add_token "show" (classList e)) e else e in
  if bool_decide (HideFlash n ∈ handler <$> ts)
  then set_style "display" "none" e1 else e1.

(** A script that at most adds events to the log. *)
Definition log_grows {A} (m : script A) : Prop :=
  ∀ user w, ∃ rest, log (m user w).2 = log w ++ rest.

(** A chain of child links from element [a] down through [rest]. *)
Fixpoint chain (st : gmap node element) (a : node) (rest : list node) : Prop :=
  match rest with
  | [] => is_Some (st !! a)
  | c :: rest' =>
      (∃ e, st !! a = Some e ∧ c ∈ childNodes e) ∧ chain st c rest'
  end.

(** Order of the timer queue. *)
Definition due_le (a b : timer) : Prop := (fire_at a ≤ fire_at b)%Z.

(** A script that leaves the clock, the timers, the listeners and the root
    and body references alone, and removes no element. *)
Definition keeps_page {A} (m : script A) : Prop :=
  ∀ user w,
    now (m user w).2 = now w ∧
    queue (m user w).2 = queue w ∧
    listeners (m user w).2 = listeners w ∧
    documentElement (doc (m user w).2) = documentElement (doc w) ∧
    body (doc (m user w).2) = body (doc w) ∧
    dom (store (doc w)) ⊆ dom (store (doc (m user w).2)).

(** Parent and child links agree: every child of [p] names [p] as its
    parent, and every element that names a parent is among its children. *)
Definition parent_lists (st : gmap node element) (c : node) (ec : element) : Prop :=
  match parentNode ec with
  | Some p => c ∈ from_option childNodes [] (st !! p)
  | None => True
  end.

#[global] Instance parent_lists_dec st c ec : Decision (parent_lists st c ec).
Proof. unfold parent_lists. destruct (parentNode ec); apply _. Defined.

Definition links_agree (st : gmap node element) : Prop :=
  map_Forall (λ p e,
    Forall (λ c, parentNode <$> st !! c = Some (Some p)) (childNodes e)) st ∧
  map_Forall (parent_lists st) st.

(** [a] comes before [b] in the list [l]. *)
Definition before {A} (a b : A) (l : list A) : Prop :=
  ∃ i j, i < j ∧ l !! i = Some a ∧ l !! j = Some b.

End Browser.

(** ** static/js/admin.js *)

Module Admin.
Import Browser.

Definition prompt_message (username : string) : string :=
  "Enter new password for " +:+ username +:+ ":".

Definition action_url (userId : string) : string :=
  "/admin/reset_password/" +:+ userId.

Definition resetPassword (userId username : string) : script unit :=
  newPass ← prompt (prompt_message username);
  if ToBoolean newPass then
    form ← createElement "form";
    setProperty form "method" "POST";;
    setProperty form "action" (action_url userId);;
    input ← createElement "input";
    setProperty input "type" "hidden";;
    setProperty input "name" "new_password";;
    setProperty input "value" (ToString newPass);;
    appendChild form input;;
    body ← document_body;
    appendChild body form;;
    submit form
  else
    mret tt.

(** The references [createElement] hands out for the form and the input. *)
Definition form_ref (w : world) : nat := fresh (dom (store (doc w))).
Definition input_ref (w : world) : nat :=
  fresh ({[form_ref w]} ∪ dom (store (doc w))).

(** The events one call adds to the log. *)
Definition trace (userId username : string) (user : string → value) (w : world)
    : list event :=
  drop (length (log w)) (log (exec (resetPassword userId username) user w)).

Definition is_submission (ev : event) : bool :=
  match ev with
  | Submitted _ _ _ _ => true
  | Prompted _ => false
  end.

End Admin.

(** ** static/js/flash.js *)

Module Flash.
Import Browser.

(** The body of the arrow function registered for [DOMContentLoaded]. *)
Definition onDOMContentLoaded : script unit :=
  flashes ← querySelectorAll ".alert";
  forEach flashes (λ flash i,
    setTimeout (RevealFlash flash) (Z.of_nat i * 100);;
    setTimeout (HideFlash flash) 5000).

(** The script itself: one statement, which registers the listener. *)
Definition flash_js : script unit :=
  addEventListener "DOMContentLoaded" InitFlashes.

Definition listen (l : listener) : script unit :=
  match l with
  | InitFlashes => onDOMContentLoaded
  end.

(** The browser dispatching an event of type [type] on the document: the
    listeners registered for it run in the order of their registration. *)
Fixpoint listen_all (type : string) (ls : list (string * listener)) : script unit :=
  match ls with
  | [] => mret tt
  | (type', l) :: ls' =>
      (if bool_decide (type' = type) then listen l else mret tt);;
      listen_all type ls'
  end.

Definition dispatchEvent (type : string) : script unit := λ user w,
  listen_all type (listeners w) user w.

(** The timers the listener sets, in the order it sets them, when it runs at
    time [t] over the elements [l], the first of which has index [i]. *)
Fixpoint schedule_from (t : Z) (i : nat) (l : list node) : list timer :=
  match l with
  | [] => []
  | flash :: l' =>
      Timer (t + timeout_ms (Z.of_nat i * 100)) (RevealFlash flash) ::
      Timer (t + timeout_ms 5000) (HideFlash flash) ::
      schedule_from t (S i) l'
  end.

(** The NodeList the listener iterates over. *)
Definition flashes (w : world) : list node := select_all ".alert" (doc w).

(** The page once the listener has run at world [w] (the moment of
    [DOMContentLoaded], see [flash_js_loaded] below) and [k] timers have
    fired since. *)
Definition page_after (k : nat) (user : string → value) (w : world) : world :=
  run k user (exec onDOMContentLoaded user w).

(** Element [n] has a reveal timer due [delay] ms after the listener ran. *)
Definition reveals_at (user : string → value) (w : world) (n : node) (delay : Z)
    : Prop :=
  Timer (now w + delay) (RevealFlash n) ∈ queue (exec onDOMContentLoaded user w).


(** A banner is revealed when it carries the class [show] and is not
    hidden by its inline style. *)
Definition revealed (d : document) (n : node) : Prop :=
  ∃ e, store d !! n = Some e ∧ "show" ∈ classList e ∧
       style e !! "display" ≠ Some "none".

End Flash.

(** ** Sample pages *)

Module Pages.
Import Browser.

Definition el (tag : string) (classes : list string) (parent : option node)
    (children : list node) : element :=
  Element tag ∅ classes ∅ parent children.

Definition page_of (elements : list (node * element)) (t : Z) : world :=
  World (Document (list_to_map elements) 0 1) [] t [] [].

(** The user list of the admin area: [html > body > button]. *)
Definition admin_page : world :=
  page_of [(0, el "html" [] None [1]);
           (1, el "body" [] (Some 0) [2]);
           (2, el "button" ["btn"] (Some 1) [])] 0.

(** [html > body > (div.alert, p > span.alert.show, div.alert.alert-danger)],
    parsed one second after navigation started. *)
Definition flash_page : world :=
  page_of [(0, el "html" [] None [1]);
           (1, el "body" [] (Some 0) [2; 3; 5]);
           (2, el "div" ["alert"] (Some 1) []);
           (3, el "p" [] (Some 1) [4]);
           (4, el "span" ["alert"; "show"] (Some 3) []);
           (5, el "div" ["alert"; "alert-danger"] (Some 1) [])] 1000.

(** A body with [n] banners, [div.alert], as its children. *)
Definition banners (n : nat) : world :=
  page_of ((0, el "html" [] None [1]) ::
           (1, el "body" [] (Some 0) (seq 2 n)) ::
           ((λ k, (k, el "div" ["alert"] (Some 1) [])) <$> seq 2 n)) 0.


Definition answers (v : value) : string → value := λ _, v.

End Pages.

(** ** Facts about the browser model *)

Module BrowserFacts.
Import Browser.

Lemma detach_orphan (st : gmap nat element) c e :
  st !! c = Some e → parentNode e = None → detach c st = st.
Proof. intros Hc He. unfold detach. by rewrite Hc; simpl; rewrite He. Qed.

Lemma alter_as_insert (g : element → element) (st : gmap nat element) n e :
  st !! n = Some e → alter g n st = <[n:=g e]> st.
Proof.
  intros Hn. apply map_eq. intros j.
  destruct (decide (n = j)) as [->|Hne].
  - by rewrite lookup_alter_eq, lookup_insert_eq, Hn.
  - by rewrite lookup_alter_ne, lookup_insert_ne.
Qed.

Lemma fresh_not_in (st : gmap nat element) : st !! fresh (dom st) = None.
Proof. apply not_elem_of_dom, is_fresh. Qed.

Lemma exec_bind {A B} (m : script A) (k : A → script B) user w :
  exec (m ≫= k) user w = exec (k (m user w).1) user (m user w).2.
Proof. unfold exec, mbind, script_bind. by destruct (m user w). Qed.

(** Scripts only ever add to the log. *)
Lemma log_grows_ret {A} (a : A) : log_grows (mret a).
Proof. intros user w. exists []. by rewrite app_nil_r. Qed.

Lemma log_grows_bind {A B} (m : script A) (k : A → script B) :
  log_grows m → (∀ a, log_grows (k a)) → log_grows (m ≫= k).
Proof.
  intros Hm Hk user w. unfold mbind, script_bind.
  destruct (Hm user w) as [r1 H1]. destruct (m user w) as [a w1].
  destruct (Hk a user w1) as [r2 H2]. exists (r1 ++ r2).
  cbn [snd] in *. by rewrite H2, H1, app_assoc.
Qed.

Lemma log_grows_with_store f : log_grows (modify (with_store f)).
Proof. intros user w. exists []. by rewrite app_nil_r. Qed.

Lemma log_grows_createElement tag : log_grows (createElement tag).
Proof. intros user w. exists []. by rewrite app_nil_r. Qed.

Lemma log_grows_setProperty n k v : log_grows (setProperty n k v).
Proof. apply log_grows_with_store. Qed.

Lemma log_grows_appendChild parent child : log_grows (appendChild parent child).
Proof. apply log_grows_with_store. Qed.

Lemma log_grows_document_body : log_grows document_body.
Proof. intros user w. exists []. by rewrite app_nil_r. Qed.

Lemma log_grows_prompt message : log_grows (prompt message).
Proof. intros user w. by eexists. Qed.

Lemma log_grows_submit form : log_grows (submit form).
Proof.
  intros user w. unfold submit. destruct (store (doc w) !! form).
  - by eexists.
  - exists []. by rewrite app_nil_r.
Qed.

Create HintDb log_grows.
#[export] Hint Resolve log_grows_ret log_grows_bind log_grows_createElement
  log_grows_setProperty log_grows_appendChild log_grows_document_body
  log_grows_prompt log_grows_submit : log_grows.

(** Runs the first statement of a script on an explicit world. *)
Ltac script_step :=
  rewrite exec_bind;
  cbn -[exec mbind fresh insert alter lookup dom detach union singleton];
  unfold with_store, with_log, with_queue;
  cbn -[exec mbind fresh insert alter lookup dom detach union singleton].

(** Settles a decidable statement about explicit data by evaluation. *)
Ltac decide_by_compute :=
  apply (bool_decide_unpack _); vm_compute; exact I.

(** Unfolds field updates applied to explicit elements. *)
Ltac element_simpl :=
  unfold set_prop, set_classList, set_style, set_parentNode, set_childNodes;
  cbn [tagName props classList style parentNode childNodes app flat_map].

(** *** Tree order

    [document_order] recurses as many times as the store has elements.  That
    is enough: in a tree the elements on a chain of child links are all
    different, so no chain is longer than that. *)

Lemma chain_descendants fuel (st : gmap nat element) a rest :
  chain st a rest → length rest < fuel →
  List.last rest a ∈ descendants fuel st a.
Proof.
  revert a rest. induction fuel as [|fuel IH]; intros a rest Hc Hlen; [lia|].
  destruct rest as [|c rest]; cbn [chain] in Hc; cbn [descendants].
  - destruct Hc as [e ->]. cbn. set_solver.
  - destruct Hc as [(e & -> & Hce) Hc]. apply elem_of_cons. right.
    apply list_elem_of_In, in_flat_map. exists c.
    split; [exact (proj1 (list_elem_of_In _ _) Hce)|].
    apply (proj1 (list_elem_of_In _ _)).
    replace (List.last (c :: rest) a) with (List.last rest c)
      by (clear; revert c; induction rest as [|? ? IH']; intros c; [done|];
          cbn [List.last] in *; destruct rest; [done|apply IH']).
    apply IH; [done|]. cbn in Hlen. lia.
Qed.

Lemma chain_dom (st : gmap nat element) a rest n :
  chain st a rest → n ∈ a :: rest → n ∈ dom st.
Proof.
  revert a. induction rest as [|c rest IH]; intros a Hc Hn; cbn [chain] in Hc.
  - apply list_elem_of_singleton in Hn as ->. by apply elem_of_dom.
  - apply elem_of_cons in Hn as [->|Hn].
    + destruct Hc as [(e & He & _) _]. apply elem_of_dom. by eexists.
    + destruct Hc as [_ Hc]. by apply (IH c).
Qed.

Lemma chain_short (st : gmap nat element) a rest :
  chain st a rest → NoDup (a :: rest) → length rest < size st.
Proof.
  intros Hc Hnd.
  assert (Hsub : a :: rest ⊆+ elements (dom st)).
  { apply NoDup_submseteq; [done|]. intros n Hn.
    apply elem_of_elements. by eapply chain_dom. }
  apply submseteq_length in Hsub. cbn [length] in Hsub.
  rewrite <-size_dom. unfold size, set_size. cbn. lia.
Qed.

(** Every element reached from the root over a chain of pairwise different
    elements is listed. *)
Lemma document_order_complete d rest :
  chain (store d) (documentElement d) rest →
  NoDup (documentElement d :: rest) →
  List.last rest (documentElement d) ∈ document_order d.
Proof.
  intros Hc Hnd. apply chain_descendants; [done|].
  by apply (chain_short _ (documentElement d)).
Qed.

(** *** Delays *)

Lemma to_long_small z :
  (-2147483648 ≤ z ≤ 2147483647)%Z → to_long z = z.
Proof. intros Hz. unfold to_long. rewrite Z.mod_small by lia. lia. Qed.

Lemma timeout_ms_small d : (0 ≤ d ≤ 2147483647)%Z → timeout_ms d = d.
Proof. intros Hd. unfold timeout_ms. rewrite to_long_small by lia. lia. Qed.

Lemma timeout_ms_nonneg d : (0 ≤ timeout_ms d)%Z.
Proof. unfold timeout_ms. lia. Qed.

(** *** The timer queue *)

Lemma enqueue_perm t q : enqueue t q ≡ₚ t :: q.
Proof.
  induction q as [|u q IH]; [done|]. cbn. case_decide; [done|].
  rewrite IH. apply Permutation_swap.
Qed.

Lemma elem_of_enqueue t u q : u ∈ enqueue t q ↔ u = t ∨ u ∈ q.
Proof. by rewrite enqueue_perm, elem_of_cons. Qed.

Lemma enqueue_sorted t q :
  StronglySorted due_le q → StronglySorted due_le (enqueue t q).
Proof.
  induction q as [|u q IH]; intros Hq; cbn.
  - repeat constructor.
  - apply StronglySorted_cons in Hq as [Hu Hq]. case_decide as Hlt.
    + apply StronglySorted_cons. split; [|by apply StronglySorted_cons].
      constructor; [unfold due_le; lia|].
      eapply Forall_impl; [exact Hu|]. unfold due_le. intros; lia.
    + apply StronglySorted_cons. split; [|by apply IH].
      apply Forall_forall. intros x [->|Hx]%elem_of_enqueue.
      * unfold due_le. lia.
      * by eapply Forall_forall in Hu.
Qed.

Lemma enqueue_all_perm ts q : foldl (λ q t, enqueue t q) q ts ≡ₚ q ++ ts.
Proof.
  revert q. induction ts as [|t ts IH]; intros q; cbn.
  - by rewrite app_nil_r.
  - rewrite IH, enqueue_perm. by rewrite <-Permutation_middle.
Qed.

Lemma enqueue_all_sorted ts q :
  StronglySorted due_le q →
  StronglySorted due_le (foldl (λ q t, enqueue t q) q ts).
Proof.
  revert q. induction ts as [|t ts IH]; intros q Hq; cbn; [done|].
  by apply IH, enqueue_sorted.
Qed.

Lemma sorted_lookup_le (q : list timer) i j a b :
  StronglySorted due_le q → i < j →
  q !! i = Some a → q !! j = Some b → due_le a b.
Proof.
  intros Hq. revert i j. induction Hq as [|u q Hq IH Hu]; intros i j Hij Hi Hj.
  - done.
  - destruct j as [|j]; [lia|]. destruct i as [|i].
    + injection Hi as <-. eapply Forall_forall in Hu; [done|].
      by eapply list_elem_of_lookup_2.
    + apply (IH i j); [lia|done..].
Qed.


(** *** The event loop *)

Lemma exec_call cb user w : exec (call cb) user w = with_store (effect cb) w.
Proof. by destruct cb. Qed.

Lemma run_spec k user w :
  run k user w =
  World (Document (fired (take k (queue w)) (store (doc w)))
           (documentElement (doc w)) (body (doc w)))
        (log w) (clock_after (take k (queue w)) (now w)) (drop k (queue w))
        (listeners w).
Proof.
  revert w. induction k as [|k IH]; intros w.
  - by destruct w as [[? ? ?] ? ? ? ?].
  - cbn [run]. unfold tick. destruct (queue w) as [|t q] eqn:Hq.
    + destruct w as [[? ? ?] ? ? ? ?]. cbn in *. by subst.
    + rewrite IH, exec_call. reflexivity.
Qed.

Lemma add_token_idemp tok l : add_token tok (add_token tok l) = add_token tok l.
Proof.
  unfold add_token. destruct (bool_decide (tok ∈ l)) eqn:H.
  - by rewrite H.
  - rewrite bool_decide_true; [done|]. set_solver.
Qed.

Lemma touched_nil n e : touched [] n e = e.
Proof. done. Qed.

Lemma touched_cons t ts n e :
  touched (t :: ts) n e =
  touched ts n
    match handler t with
    | RevealFlash m =>
        if decide (m = n)
        then set_classList (add_token "show" (classList e)) e else e
    | HideFlash m =>
        if decide (m = n) then set_style "display" "none" e else e
    end.
Proof.
  unfold touched. rewrite fmap_cons.
  rewrite !(bool_decide_ext _ _ (elem_of_cons _ _ _)).
  destruct (handler t) as [m|m]; case_decide as Hm; subst;
    repeat case_bool_decide; try (exfalso; intuition congruence);
    destruct e; element_simpl;
    rewrite ?add_token_idemp, ?insert_insert_eq; done.
Qed.

Lemma fired_lookup ts (st : gmap nat element) n :
  fired ts st !! n = touched ts n <$> st !! n.
Proof.
  revert st. induction ts as [|t ts IH]; intros st.
  - cbn. by destruct (st !! n).
  - unfold fired in *. cbn [foldl]. rewrite IH.
    destruct (st !! n) as [e|] eqn:Hn.
    + cbn. rewrite touched_cons.
      destruct (handler t) as [m|m]; cbn [effect]; case_decide; subst;
        by rewrite ?lookup_alter_eq, ?lookup_alter_ne, Hn by done.
    + destruct (handler t) as [m|m]; cbn [effect];
        (destruct (decide (m = n)) as [->|];
         [by rewrite lookup_alter_eq, Hn | by rewrite lookup_alter_ne, Hn]).
Qed.

(** *** What fired callbacks leave of an element *)

Lemma elem_of_add_token tok l : tok ∈ add_token tok l.
Proof. unfold add_token. case_bool_decide; set_solver. Qed.

Lemma touched_reveal ts n e :
  RevealFlash n ∈ handler <$> ts → "show" ∈ classList (touched ts n e).
Proof.
  intros H. unfold touched. rewrite (bool_decide_true _ H).
  case_bool_decide; element_simpl; apply elem_of_add_token.
Qed.

Lemma touched_hide ts n e :
  HideFlash n ∈ handler <$> ts →
  style (touched ts n e) !! "display" = Some "none".
Proof.
  intros H. unfold touched. rewrite (bool_decide_true _ H).
  element_simpl. apply lookup_insert_eq.
Qed.


Lemma touched_untouched ts n e :
  RevealFlash n ∉ handler <$> ts → HideFlash n ∉ handler <$> ts →
  touched ts n e = e.
Proof.
  intros H1 H2. unfold touched.
  by rewrite (bool_decide_false _ H1), (bool_decide_false _ H2).
Qed.

(** Only the class list and the inline style can differ, and only by the
    token [show] and the declaration [display: none]. *)
Lemma touched_frame ts n e :
  tagName (touched ts n e) = tagName e ∧
  props (touched ts n e) = props e ∧
  parentNode (touched ts n e) = parentNode e ∧
  childNodes (touched ts n e) = childNodes e ∧
  (classList (touched ts n e) = classList e ∨
   classList (touched ts n e) = add_token "show" (classList e)) ∧
  (style (touched ts n e) = style e ∨
   style (touched ts n e) = <["display":="none"]> (style e)).
Proof.
  unfold touched. repeat case_bool_decide; element_simpl; naive_solver.
Qed.

(** *** The clock *)

Lemma clock_after_lower ts t0 : (t0 ≤ clock_after ts t0)%Z.
Proof.
  revert t0. induction ts as [|u ts IH]; intros t0; cbn; [lia|].
  specialize (IH (Z.max t0 (fire_at u))). unfold clock_after in IH. lia.
Qed.

Lemma clock_after_upper ts t0 m :
  (t0 ≤ m)%Z → Forall (λ u, (fire_at u ≤ m)%Z) ts → (clock_after ts t0 ≤ m)%Z.
Proof.
  revert t0. induction ts as [|u ts IH]; intros t0 H0 Hts; cbn; [done|].
  apply Forall_cons in Hts as [Hu Hts]. apply IH; [lia|done].
Qed.

Lemma clock_after_snoc ts u t0 :
  clock_after (ts ++ [u]) t0 = Z.max (clock_after ts t0) (fire_at u).
Proof. unfold clock_after. by rewrite foldl_snoc. Qed.

(** When the [k]-th timer of a sorted queue has fired, the clock shows the
    time it was due, provided no timer was overdue to begin with. *)
Lemma clock_after_sorted (q : list timer) k t t0 :
  StronglySorted due_le q → q !! k = Some t → (t0 ≤ fire_at t)%Z →
  clock_after (take (S k) q) t0 = fire_at t.
Proof.
  intros Hq Hk H0. rewrite (take_S_r _ _ _ Hk), clock_after_snoc.
  apply Z.max_r, clock_after_upper; [done|].
  apply Forall_forall. intros u (i & Hi & Hlt)%elem_of_take.
  apply (sorted_lookup_le q i k u t Hq Hlt Hi Hk).
Qed.

End BrowserFacts.

(** ** Properties of [resetPassword] *)

Module AdminFacts.
Import Browser Admin BrowserFacts Pages.

Lemma form_ref_fresh w : store (doc w) !! form_ref w = None.
Proof. apply fresh_not_in. Qed.

Lemma input_ref_fresh w :
  store (doc w) !! input_ref w = None ∧ input_ref w ≠ form_ref w.
Proof.
  pose proof (is_fresh ({[form_ref w]} ∪ dom (store (doc w)))) as H.
  fold (input_ref w) in H. split.
  - apply not_elem_of_dom. set_solver.
  - set_solver.
Qed.

(** The falsy branch: the call only shows the prompt. *)
Lemma resetPassword_declined userId username user w :
  ToBoolean (user (prompt_message username)) = false →
  exec (resetPassword userId username) user w =
  with_log (λ l, l ++ [Prompted (prompt_message username)]) w.
Proof.
  intros Hu. unfold exec, resetPassword, mbind, script_bind, prompt.
  by rewrite Hu.
Qed.

(** The truthy branch, statement by statement, on an explicit world. *)
Lemma resetPassword_accepted_explicit userId username p user st root b lg t q ls be :
  user (prompt_message username) = Str p → p ≠ "" →
  st !! b = Some be →
  let f := fresh (dom st) in
  let i := fresh ({[f]} ∪ dom st) in
  exec (resetPassword userId username) user (World (Document st root b) lg t q ls) =
  World
    (Document
       (<[i := Element "input"
                 (<["value":=p]> (<["name":="new_password"]> (<["type":="hidden"]> ∅)))
                 [] ∅ (Some f) []]>
          (<[f := Element "form"
                    (<["action":=action_url userId]> (<["method":="POST"]> ∅))
                    [] ∅ (Some b) [i]]>
             (<[b := set_childNodes (childNodes be ++ [f]) be]> st)))
       root b)
    ((lg ++ [Prompted (prompt_message username)]) ++
       [Submitted f "POST" (action_url userId) [("new_password", p)]])
    t q ls.
Proof.
  intros Hu Hp Hb f i.
  assert (Hf : st !! f = None) by apply fresh_not_in.
  assert (Hi : i ∉ {[f]} ∪ dom st) by apply is_fresh.
  assert (Hif : i ≠ f) by set_solver.
  assert (Hbf : b ≠ f) by congruence.
  assert (Hbi : b ≠ i).
  { intros ->. apply Hi, elem_of_union_r, elem_of_dom. by eexists. }
  destruct p as [|a p]; [done|].
  unfold resetPassword.
  (* const newPass = prompt(...); if (newPass) *)
  script_step. rewrite Hu. cbn [ToBoolean ToString].
  (* const form = document.createElement('form') *)
  script_step. fold f.
  (* form.method = 'POST'; form.action = ... *)
  do 2 (script_step; rewrite alter_insert_eq; element_simpl).
  (* const input = document.createElement('input') *)
  script_step. rewrite dom_insert_L. fold i.
  (* input.type = 'hidden'; input.name = ...; input.value = newPass *)
  do 3 (script_step; rewrite alter_insert_eq; element_simpl).
  (* form.appendChild(input) *)
  script_step.
  rewrite (detach_orphan _ i _ (lookup_insert_eq _ _ _)) by done.
  rewrite (alter_insert_ne _ f i), !alter_insert_eq by done. element_simpl.
  (* document.body.appendChild(form) *)
  do 2 script_step.
  erewrite (detach_orphan _ f);
    [| by rewrite lookup_insert_ne, lookup_insert_eq | done].
  rewrite (alter_insert_ne _ b i), (alter_insert_ne _ b f) by done.
  rewrite (alter_insert_ne _ f i), alter_insert_eq by done.
  rewrite (alter_as_insert _ _ _ _ Hb). element_simpl.
  (* form.submit() *)
  unfold exec, submit, with_log. cbn [doc store].
  rewrite lookup_insert_ne, lookup_insert_eq by done. element_simpl.
  unfold form_entries. element_simpl. unfold entry_of.
  rewrite lookup_insert_eq. element_simpl.
  rewrite (lookup_insert_ne _ "action" "method") by done.
  rewrite !lookup_insert_eq. reflexivity.
Qed.

(** The truthy branch, as one update of the world. *)
Lemma resetPassword_accepted userId username p user w be :
  user (prompt_message username) = Str p → p ≠ "" →
  store (doc w) !! body (doc w) = Some be →
  exec (resetPassword userId username) user w =
  with_log (λ l, (l ++ [Prompted (prompt_message username)]) ++
                 [Submitted (form_ref w) "POST" (action_url userId)
                    [("new_password", p)]])
    (with_store (λ st,
       <[input_ref w :=
           Element "input"
             (<["value":=p]> (<["name":="new_password"]> (<["type":="hidden"]> ∅)))
             [] ∅ (Some (form_ref w)) []]>
         (<[form_ref w :=
              Element "form"
                (<["action":=action_url userId]> (<["method":="POST"]> ∅))
                [] ∅ (Some (body (doc w))) [input_ref w]]>
            (<[body (doc w) := set_childNodes (childNodes be ++ [form_ref w]) be]> st)))
       w).
Proof.
  destruct w as [[st root b] lg t q ls]. intros Hu Hp Hb.
  apply (resetPassword_accepted_explicit userId username p user st root b lg t q ls be
           Hu Hp Hb).
Qed.

(** Whatever the user answers, the call first logs the prompt, and logs
    nothing else unless the answer is truthy. *)
Lemma resetPassword_log userId username user w :
  ∃ rest,
    log (exec (resetPassword userId username) user w) =
      log w ++ Prompted (prompt_message username) :: rest ∧
    (ToBoolean (user (prompt_message username)) = false → rest = []).
Proof.
  destruct (ToBoolean (user (prompt_message username))) eqn:Hu.
  - unfold resetPassword. rewrite exec_bind. cbn [prompt fst snd]. rewrite Hu.
    match goal with |- context [exec ?m user ?w'] =>
      assert (Hm : log_grows m) by eauto 20 with log_grows;
      destruct (Hm user w') as [rest Hrest]
    end.
    exists rest. split; [|done].
    unfold exec. rewrite Hrest. cbn [with_log log]. by rewrite <-app_assoc.
  - rewrite resetPassword_declined by done. exists []. done.
Qed.

Lemma trace_spec userId username user w :
  log (exec (resetPassword userId username) user w) =
  log w ++ trace userId username user w.
Proof.
  unfold trace. destruct (resetPassword_log userId username user w) as (rest & -> & _).
  by rewrite drop_app_length.
Qed.

Lemma substring_all (s : string) : String.substring 0 (String.length s) s = s.
Proof. induction s as [|c s IH]; [done|]. cbn. by rewrite IH. Qed.

(** C1: when the prompt returns a non-empty string [p], the call creates a
    form with method POST and action ['/admin/reset_password/' + userId]
    whose only child is a hidden input named [new_password] with value [p],
    appends the form to [document.body] as its last child, and submits it;
    no other element of the page changes. *)
Theorem resetPassword_submits_form userId username p user w :
  user (prompt_message username) = Str p → p ≠ "" →
  is_Some (store (doc w) !! body (doc w)) →
  let w' := exec (resetPassword userId username) user w in
  ∃ form input fe ie,
    store (doc w) !! form = None ∧ store (doc w) !! input = None ∧
    form ≠ input ∧
    store (doc w') !! form = Some fe ∧
    tagName fe = "form" ∧
    props fe = {[ "method" := "POST";
                  "action" := "/admin/reset_password/" +:+ userId ]} ∧
    childNodes fe = [input] ∧
    store (doc w') !! input = Some ie ∧
    tagName ie = "input" ∧
    props ie = {[ "type" := "hidden"; "name" := "new_password";
                  "value" := p ]} ∧
    parentNode ie = Some form ∧ childNodes ie = [] ∧
    parentNode fe = Some (body (doc w)) ∧
    body (doc w') = body (doc w) ∧
    childNodes <$> store (doc w') !! body (doc w) =
      (λ e, childNodes e ++ [form]) <$> store (doc w) !! body (doc w) ∧
    (∀ n, n ≠ form → n ≠ input → n ≠ body (doc w) →
          store (doc w') !! n = store (doc w) !! n) ∧
    log w' = log w ++
      [Prompted (prompt_message username);
       Submitted form "POST" ("/admin/reset_password/" +:+ userId)
         [("new_password", p)]].
Proof.
  intros Hu Hp [be Hb] w'. subst w'.
  rewrite (resetPassword_accepted _ _ _ _ _ _ Hu Hp Hb).
  destruct (input_ref_fresh w) as [Hi Hif]. pose proof (form_ref_fresh w) as Hf.
  assert (Hbf : body (doc w) ≠ form_ref w) by congruence.
  assert (Hbi : body (doc w) ≠ input_ref w) by congruence.
  exists (form_ref w), (input_ref w).
  exists (Element "form"
            (<["action":=action_url userId]> (<["method":="POST"]> ∅))
            [] ∅ (Some (body (doc w))) [input_ref w]).
  exists (Element "input"
            (<["value":=p]> (<["name":="new_password"]> (<["type":="hidden"]> ∅)))
            [] ∅ (Some (form_ref w)) []).
  cbn [with_log with_store doc store log body tagName props parentNode childNodes].
  split; [done|]. split; [done|]. split; [done|].
  split; [by rewrite lookup_insert_ne, lookup_insert_eq|].
  split; [done|]. split.
  { apply map_eq. intros k.
    destruct (decide (k = "method")) as [->|]; [done|].
    destruct (decide (k = "action")) as [->|].
    - rewrite lookup_insert_eq, lookup_insert_ne by done.
      by rewrite lookup_singleton_eq.
    - rewrite !lookup_insert_ne by done.
      by rewrite lookup_empty, lookup_singleton_ne. }
  split; [done|]. split; [apply lookup_insert_eq|]. split; [done|]. split.
  { apply map_eq. intros k.
    destruct (decide (k = "type")) as [->|]; [done|].
    destruct (decide (k = "name")) as [->|]; [done|].
    destruct (decide (k = "value")) as [->|].
    - rewrite lookup_insert_eq, !lookup_insert_ne by done.
      by rewrite lookup_singleton_eq.
    - rewrite !lookup_insert_ne by done.
      by rewrite lookup_empty, lookup_singleton_ne. }
  repeat (split; [done|]). split.
  { rewrite !lookup_insert_ne by done. by rewrite lookup_insert_eq, Hb. }
  split.
  { intros n ? ? ?. by rewrite !lookup_insert_ne by done. }
  by rewrite <-app_assoc.
Qed.

Lemma resetPassword_submits_form_witness :
  ∃ form input fe ie,
    store (doc admin_page) !! form = None ∧
    store (doc admin_page) !! input = None ∧
    form ≠ input ∧
    store (doc (exec (resetPassword "7" "alice") (answers (Str "s3cret")) admin_page))
      !! form = Some fe ∧
    tagName fe = "form" ∧
    props fe = {[ "method" := "POST"; "action" := "/admin/reset_password/7" ]} ∧
    childNodes fe = [input] ∧
    store (doc (exec (resetPassword "7" "alice") (answers (Str "s3cret")) admin_page))
      !! input = Some ie ∧
    tagName ie = "input" ∧
    props ie = {[ "type" := "hidden"; "name" := "new_password";
                  "value" := "s3cret" ]} ∧
    parentNode ie = Some form ∧ childNodes ie = [] ∧
    parentNode fe = Some 1 ∧
    body (doc (exec (resetPassword "7" "alice") (answers (Str "s3cret")) admin_page)) = 1 ∧
    childNodes <$>
      store (doc (exec (resetPassword "7" "alice") (answers (Str "s3cret")) admin_page))
        !! 1 = Some [2; form] ∧
    (∀ n, n ≠ form → n ≠ input → n ≠ 1 →
       store (doc (exec (resetPassword "7" "alice") (answers (Str "s3cret")) admin_page))
         !! n = store (doc admin_page) !! n) ∧
    log (exec (resetPassword "7" "alice") (answers (Str "s3cret")) admin_page) =
      [Prompted "Enter new password for alice:";
       Submitted form "POST" "/admin/reset_password/7" [("new_password", "s3cret")]].
Proof.
  apply (resetPassword_submits_form "7" "alice" "s3cret" (answers (Str "s3cret"))
           admin_page); [reflexivity | discriminate | by eexists].
Defined.

(** C2: when the user cancels the prompt ([prompt] returns [null]) the
    call is a no-op on the page: no element is created, nothing is appended,
    nothing is submitted, and the document is the one it was; the call only
    shows the prompt. *)
Theorem resetPassword_cancel_noop userId username user w :
  user (prompt_message username) = Null →
  let w' := exec (resetPassword userId username) user w in
  doc w' = doc w ∧ now w' = now w ∧ queue w' = queue w ∧
  trace userId username user w = [Prompted (prompt_message username)] ∧
  (∀ ev, ev ∈ trace userId username user w → is_submission ev = false).
Proof.
  intros Hu w'. subst w'. unfold trace.
  rewrite resetPassword_declined by (by rewrite Hu).
  cbn [with_log doc now queue log]. rewrite drop_app_length.
  repeat split. intros ev ->%list_elem_of_singleton. done.
Qed.

Lemma resetPassword_cancel_noop_witness :
  doc (exec (resetPassword "7" "alice") (answers Null) admin_page) = doc admin_page ∧
  now (exec (resetPassword "7" "alice") (answers Null) admin_page) = now admin_page ∧
  queue (exec (resetPassword "7" "alice") (answers Null) admin_page) = queue admin_page ∧
  trace "7" "alice" (answers Null) admin_page =
    [Prompted "Enter new password for alice:"] ∧
  (∀ ev, ev ∈ trace "7" "alice" (answers Null) admin_page → is_submission ev = false).
Proof.
  apply (resetPassword_cancel_noop "7" "alice" (answers Null) admin_page).
  reflexivity.
Defined.

(** C3: the form is submitted only after the prompt: in the events of any
    call, a submission is preceded by the prompt, and the prompt returned a
    (non-empty) string. *)
Theorem submit_only_after_prompt userId username user w k f m a es :
  trace userId username user w !! k = Some (Submitted f m a es) →
  ∃ j p, j < k ∧
    trace userId username user w !! j = Some (Prompted (prompt_message username)) ∧
    user (prompt_message username) = Str p ∧ p ≠ "".
Proof.
  unfold trace.
  destruct (resetPassword_log userId username user w) as (rest & -> & Hrest).
  rewrite drop_app_length. intros Hk.
  destruct k as [|k]; [done|].
  destruct (user (prompt_message username)) as [|[|c p]] eqn:Hu.
  - rewrite Hrest in Hk by done. done.
  - rewrite Hrest in Hk by done. done.
  - exists 0, (String c p). repeat split; [lia | done].
Qed.

Lemma submit_only_after_prompt_witness :
  ∃ j p, j < 1 ∧
    trace "7" "alice" (answers (Str "s3cret")) admin_page !! j =
      Some (Prompted "Enter new password for alice:") ∧
    answers (Str "s3cret") "Enter new password for alice:" = Str p ∧ p ≠ "".
Proof.
  apply (submit_only_after_prompt "7" "alice" (answers (Str "s3cret")) admin_page 1
           3 "POST" "/admin/reset_password/7" [("new_password", "s3cret")]).
  reflexivity.
Defined.

(** C8: when the prompt returns the empty string the guard fails as it does
    for [null]: the call leaves the same world as a cancelled one, the
    document is unchanged and nothing is submitted. *)
Theorem resetPassword_empty_is_cancel userId username user user' w :
  user (prompt_message username) = Str "" →
  user' (prompt_message username) = Null →
  exec (resetPassword userId username) user w =
    exec (resetPassword userId username) user' w ∧
  doc (exec (resetPassword userId username) user w) = doc w ∧
  trace userId username user w = [Prompted (prompt_message username)].
Proof.
  intros Hu Hu'. unfold trace.
  rewrite !resetPassword_declined by (by rewrite ?Hu, ?Hu').
  cbn [with_log doc log]. by rewrite drop_app_length.
Qed.

Lemma resetPassword_empty_is_cancel_witness :
  exec (resetPassword "7" "alice") (answers (Str "")) admin_page =
    exec (resetPassword "7" "alice") (answers Null) admin_page ∧
  doc (exec (resetPassword "7" "alice") (answers (Str "")) admin_page) =
    doc admin_page ∧
  trace "7" "alice" (answers (Str "")) admin_page =
    [Prompted "Enter new password for alice:"].
Proof.
  apply (resetPassword_empty_is_cancel "7" "alice" (answers (Str "")) (answers Null)
           admin_page); reflexivity.
Defined.

(** C9: the action of the submitted form is the literal concatenation of
    ['/admin/reset_password/'] and [userId]: the characters of [userId]
    follow the 22 characters of the prefix unchanged, whatever they are. *)
Theorem action_url_verbatim userId username user w :
  ToBoolean (user (prompt_message username)) = true →
  is_Some (store (doc w) !! body (doc w)) →
  let w' := exec (resetPassword userId username) user w in
  ∃ form fe es,
    last (log w') =
      Some (Submitted form "POST" ("/admin/reset_password/" +:+ userId) es) ∧
    store (doc w') !! form = Some fe ∧
    props fe !! "action" = Some (action_url userId) ∧
    action_url userId = "/admin/reset_password/" +:+ userId ∧
    String.length (action_url userId) = 22 + String.length userId ∧
    String.substring 22 (String.length userId) (action_url userId) = userId.
Proof.
  intros Hu [be Hb] w'. subst w'.
  destruct (user (prompt_message username)) as [|[|c p]] eqn:Hp; try done.
  rewrite (resetPassword_accepted _ _ (String c p) _ _ _ Hp ltac:(done) Hb).
  destruct (input_ref_fresh w) as [Hi Hif].
  eexists (form_ref w), _, _. cbn [with_log with_store doc store log].
  split; [by rewrite last_snoc|].
  split; [by rewrite lookup_insert_ne, lookup_insert_eq|].
  split; [done|]. split; [done|]. split; [done|].
  cbn. apply substring_all.
Qed.

Lemma action_url_verbatim_witness :
  ∃ form fe es,
    last (log (exec (resetPassword "7/../x?next=/" "alice") (answers (Str "s3cret"))
                 admin_page)) =
      Some (Submitted form "POST" "/admin/reset_password/7/../x?next=/" es) ∧
    store (doc (exec (resetPassword "7/../x?next=/" "alice") (answers (Str "s3cret"))
                  admin_page)) !! form = Some fe ∧
    props fe !! "action" = Some "/admin/reset_password/7/../x?next=/" ∧
    action_url "7/../x?next=/" = "/admin/reset_password/7/../x?next=/" ∧
    String.length (action_url "7/../x?next=/") = 35 ∧
    String.substring 22 13 (action_url "7/../x?next=/") = "7/../x?next=/".
Proof.
  apply (action_url_verbatim "7/../x?next=/" "alice" (answers (Str "s3cret"))
           admin_page); [reflexivity | by eexists].
Defined.

End AdminFacts.

(** ** Properties of the flash script *)

Module FlashFacts.
Import Browser Flash BrowserFacts Pages.

(** *** What the listener does *)

Lemma forEach_from_schedule i (l : list nat) user w :
  exec (forEach_from i l (λ flash i,
          setTimeout (RevealFlash flash) (Z.of_nat i * 100);;
          setTimeout (HideFlash flash) 5000)) user w =
  with_queue (λ q, foldl (λ q t, enqueue t q) q (schedule_from (now w) i l)) w.
Proof.
  revert i w. induction l as [|n l IH]; intros i w.
  - by destruct w as [[? ? ?] ? ? ? ?].
  - cbn [forEach_from schedule_from foldl].
    unfold exec, mbind, script_bind in *. cbn [setTimeout modify].
    rewrite IH. by destruct w as [[? ? ?] ? ? ? ?].
Qed.

Lemma onDOMContentLoaded_spec user w :
  exec onDOMContentLoaded user w =
  with_queue (λ q, foldl (λ q t, enqueue t q) q
                     (schedule_from (now w) 0 (flashes w))) w.
Proof. apply (forEach_from_schedule 0 (flashes w) user w). Qed.

Lemma elem_of_schedule_from t0 i (l : list nat) t :
  t ∈ schedule_from t0 i l ↔
  ∃ j n, l !! j = Some n ∧
    (t = Timer (t0 + timeout_ms (Z.of_nat (i + j) * 100)) (RevealFlash n) ∨
     t = Timer (t0 + 5000) (HideFlash n)).
Proof.
  revert i. induction l as [|m l IH]; intros i; cbn [schedule_from].
  - rewrite elem_of_nil. split; [done|]. by intros (j & n & ? & _).
  - change (timeout_ms 5000) with 5000%Z. rewrite !elem_of_cons, IH. split.
    + intros [->|[->|(j & n & Hj & Ht)]].
      * exists 0, m. split; [done|]. left. by rewrite Nat.add_0_r.
      * exists 0, m. split; [done|]. by right.
      * exists (S j), n. split; [done|].
        by replace (i + S j) with (S i + j) by lia.
    + intros ([|j] & n & Hj & Ht).
      * injection Hj as ->. destruct Ht as [->| ->].
        -- left. by rewrite Nat.add_0_r.
        -- right. by left.
      * right. right. exists j, n. split; [done|].
        by replace (S i + j) with (i + S j) by lia.
Qed.

(** The queue after the listener: what was pending, plus one reveal timer
    and one hide timer for every element of the NodeList. *)
Lemma elem_of_queue_loaded user w t :
  t ∈ queue (exec onDOMContentLoaded user w) ↔
  t ∈ queue w ∨
  ∃ j n, flashes w !! j = Some n ∧
    (t = Timer (now w + timeout_ms (Z.of_nat j * 100)) (RevealFlash n) ∨
     t = Timer (now w + 5000) (HideFlash n)).
Proof.
  rewrite onDOMContentLoaded_spec. cbn [with_queue queue].
  by rewrite enqueue_all_perm, elem_of_app, elem_of_schedule_from.
Qed.

Lemma queue_loaded_sorted user w :
  StronglySorted due_le (queue w) →
  StronglySorted due_le (queue (exec onDOMContentLoaded user w)).
Proof.
  intros Hq. rewrite onDOMContentLoaded_spec. by apply enqueue_all_sorted.
Qed.

(** Loading the script and dispatching [DOMContentLoaded] runs the body of
    the listener, once. *)
Lemma flash_js_loaded user w :
  listeners w = [] →
  exec (flash_js;; dispatchEvent "DOMContentLoaded") user w =
  exec onDOMContentLoaded user
    (with_listeners (λ _, [("DOMContentLoaded", InitFlashes)]) w).
Proof.
  intros Hl. rewrite exec_bind. unfold flash_js, addEventListener, modify.
  cbn [fst snd].
  replace (with_listeners (λ ls, ls ++ [("DOMContentLoaded", InitFlashes)]) w)
    with (with_listeners (λ _, [("DOMContentLoaded", InitFlashes)]) w)
    by (unfold with_listeners; by rewrite Hl).
  unfold exec, dispatchEvent. cbn [with_listeners listeners listen_all].
  rewrite bool_decide_true by done.
  unfold mbind, script_bind. cbn [listen].
  by destruct (onDOMContentLoaded user _) as [[] w'].
Qed.

(** The listener itself changes nothing but the queue. *)
Lemma loaded_frame user w :
  doc (exec onDOMContentLoaded user w) = doc w ∧
  log (exec onDOMContentLoaded user w) = log w ∧
  now (exec onDOMContentLoaded user w) = now w ∧
  listeners (exec onDOMContentLoaded user w) = listeners w.
Proof. by rewrite onDOMContentLoaded_spec. Qed.

Lemma flashes_selected w n :
  n ∈ flashes w ↔
  n ∈ document_order (doc w) ∧
  ∃ e, store (doc w) !! n = Some e ∧ "alert" ∈ classList e.
Proof.
  unfold flashes, select_all. rewrite list_elem_of_filter. unfold selects.
  split.
  - intros [Hsel Hn]. split; [done|].
    destruct (store (doc w) !! n) as [e|]; [|done].
    exists e. split; [done|]. cbn in Hsel. by apply bool_decide_unpack in Hsel.
  - intros [Hn (e & -> & He)]. split; [|done]. cbn. by apply bool_decide_pack.
Qed.

(** *** The page while the timers fire *)


Lemma page_after_spec k user w :
  page_after k user w =
  World (Document
           (fired (take k (queue (exec onDOMContentLoaded user w))) (store (doc w)))
           (documentElement (doc w)) (body (doc w)))
        (log w)
        (clock_after (take k (queue (exec onDOMContentLoaded user w))) (now w))
        (drop k (queue (exec onDOMContentLoaded user w)))
        (listeners w).
Proof.
  unfold page_after. rewrite run_spec.
  destruct (loaded_frame user w) as (-> & -> & -> & ->). done.
Qed.

Lemma page_after_lookup k user w n :
  store (doc (page_after k user w)) !! n =
  touched (take k (queue (exec onDOMContentLoaded user w))) n <$> store (doc w) !! n.
Proof. rewrite page_after_spec. cbn [doc store]. apply fired_lookup. Qed.

(** A timer set by the listener fires, and when it does the clock shows the
    time it was due. *)
Lemma loaded_timer_fires user w t :
  StronglySorted due_le (queue w) → (now w ≤ fire_at t)%Z →
  t ∈ queue (exec onDOMContentLoaded user w) →
  ∃ k, queue (exec onDOMContentLoaded user w) !! k = Some t ∧
       now (page_after (S k) user w) = fire_at t ∧
       handler t ∈ handler <$> take (S k) (queue (exec onDOMContentLoaded user w)).
Proof.
  intros Hq Hnow [k Hk]%list_elem_of_lookup_1. exists k. split; [done|]. split.
  - rewrite page_after_spec. cbn [now].
    apply clock_after_sorted; [by apply queue_loaded_sorted|done..].
  - apply list_elem_of_fmap_2. rewrite (take_S_r _ _ _ Hk). set_solver.
Qed.

(** C4, amended: the element at index [i] of the NodeList, for
    [i × 100 ≤ 2147483647], gets a timer due [i × 100] ms after the listener
    ran, whose callback adds the class [show] to it: the timer fires, the
    clock then shows that time, and the element carries the class. *)
Theorem reveal_staggered user w i n :
  StronglySorted due_le (queue w) →
  flashes w !! i = Some n →
  (Z.of_nat i * 100 ≤ 2147483647)%Z →
  call (RevealFlash n) = classList_add n "show" ∧
  Timer (now w + Z.of_nat i * 100) (RevealFlash n)
    ∈ queue (exec onDOMContentLoaded user w) ∧
  ∃ k e,
    queue (exec onDOMContentLoaded user w) !! k =
      Some (Timer (now w + Z.of_nat i * 100) (RevealFlash n)) ∧
    now (page_after (S k) user w) = (now w + Z.of_nat i * 100)%Z ∧
    store (doc (page_after (S k) user w)) !! n = Some e ∧
    "show" ∈ classList e.
Proof.
  intros Hq Hi Hfit. split; [done|].
  assert (Hin : Timer (now w + Z.of_nat i * 100) (RevealFlash n)
                  ∈ queue (exec onDOMContentLoaded user w)).
  { apply elem_of_queue_loaded. right. exists i, n.
    rewrite timeout_ms_small by lia. auto. }
  split; [done|].
  assert (Hdue : (now w ≤ fire_at (Timer (now w + Z.of_nat i * 100) (RevealFlash n)))%Z)
    by (cbn; lia).
  destruct (loaded_timer_fires user w _ Hq Hdue Hin) as (k & Hk & Hnow & Hh).
  apply list_elem_of_lookup_2, flashes_selected in Hi as [_ (e & He & _)].
  exists k, (touched (take (S k) (queue (exec onDOMContentLoaded user w))) n e).
  split; [done|]. split; [done|]. split.
  - by rewrite page_after_lookup, He.
  - by apply touched_reveal.
Qed.

Lemma reveal_staggered_witness :
  call (RevealFlash 5) = classList_add 5 "show" ∧
  Timer 1200 (RevealFlash 5)
    ∈ queue (exec onDOMContentLoaded (answers Null) flash_page) ∧
  ∃ k e,
    queue (exec onDOMContentLoaded (answers Null) flash_page) !! k =
      Some (Timer 1200 (RevealFlash 5)) ∧
    now (page_after (S k) (answers Null) flash_page) = 1200%Z ∧
    store (doc (page_after (S k) (answers Null) flash_page)) !! 5 = Some e ∧
    "show" ∈ classList e.
Proof.
  apply (reveal_staggered (answers Null) flash_page 2 5);
    [constructor | reflexivity | lia].
Defined.

(** C5: every element of the NodeList, whatever its index, gets a timer due
    5000 ms after the listener ran, whose callback sets [style.display] to
    ['none']: the timer fires, the clock then shows that time, and the
    element's inline display is ['none']. *)
Theorem hide_after_5000 user w i n :
  StronglySorted due_le (queue w) →
  flashes w !! i = Some n →
  call (HideFlash n) = style_set n "display" "none" ∧
  Timer (now w + 5000) (HideFlash n) ∈ queue (exec onDOMContentLoaded user w) ∧
  ∃ k e,
    queue (exec onDOMContentLoaded user w) !! k =
      Some (Timer (now w + 5000) (HideFlash n)) ∧
    now (page_after (S k) user w) = (now w + 5000)%Z ∧
    store (doc (page_after (S k) user w)) !! n = Some e ∧
    style e !! "display" = Some "none".
Proof.
  intros Hq Hi. split; [done|].
  assert (Hin : Timer (now w + 5000) (HideFlash n)
                  ∈ queue (exec onDOMContentLoaded user w)).
  { apply elem_of_queue_loaded. right. exists i, n. auto. }
  split; [done|].
  assert (Hdue : (now w ≤ fire_at (Timer (now w + 5000) (HideFlash n)))%Z)
    by (cbn; lia).
  destruct (loaded_timer_fires user w _ Hq Hdue Hin) as (k & Hk & Hnow & Hh).
  apply list_elem_of_lookup_2, flashes_selected in Hi as [_ (e & He & _)].
  exists k, (touched (take (S k) (queue (exec onDOMContentLoaded user w))) n e).
  split; [done|]. split; [done|]. split.
  - by rewrite page_after_lookup, He.
  - by apply touched_hide.
Qed.

Lemma hide_after_5000_witness :
  call (HideFlash 5) = style_set 5 "display" "none" ∧
  Timer 6000 (HideFlash 5)
    ∈ queue (exec onDOMContentLoaded (answers Null) flash_page) ∧
  ∃ k e,
    queue (exec onDOMContentLoaded (answers Null) flash_page) !! k =
      Some (Timer 6000 (HideFlash 5)) ∧
    now (page_after (S k) (answers Null) flash_page) = 6000%Z ∧
    store (doc (page_after (S k) (answers Null) flash_page)) !! 5 = Some e ∧
    style e !! "display" = Some "none".
Proof.
  apply (hide_after_5000 (answers Null) flash_page 2 5);
    [constructor | reflexivity].
Defined.

(** *** Timers and indices *)

Lemma flashes_NoDup w : NoDup (document_order (doc w)) → NoDup (flashes w).
Proof. apply NoDup_filter. Qed.

(** With no other timer pending, every timer in the queue was set by the
    listener for an element of the NodeList. *)
Lemma queue_loaded_inv user w t :
  queue w = [] → t ∈ queue (exec onDOMContentLoaded user w) →
  ∃ j n, flashes w !! j = Some n ∧
    (t = Timer (now w + timeout_ms (Z.of_nat j * 100)) (RevealFlash n) ∨
     t = Timer (now w + 5000) (HideFlash n)).
Proof.
  intros Hq [Ht|Ht]%elem_of_queue_loaded; [|done].
  rewrite Hq in Ht. by apply elem_of_nil in Ht.
Qed.

Lemma reveal_timer_unique user w i n t :
  queue w = [] → NoDup (document_order (doc w)) →
  flashes w !! i = Some n →
  t ∈ queue (exec onDOMContentLoaded user w) → handler t = RevealFlash n →
  t = Timer (now w + timeout_ms (Z.of_nat i * 100)) (RevealFlash n).
Proof.
  intros Hq Hnd Hi Ht Hh.
  destruct (queue_loaded_inv user w t Hq Ht) as (j & m & Hj & [-> | ->]);
    [|done].
  cbn in Hh. injection Hh as ->.
  by rewrite (NoDup_lookup _ i j n (flashes_NoDup w Hnd) Hi Hj).
Qed.

Lemma schedule_from_NoDup t0 i (l : list nat) :
  NoDup l → NoDup (schedule_from t0 i l).
Proof.
  revert i. induction l as [|m l IH]; intros i Hl; cbn [schedule_from].
  - constructor.
  - apply NoDup_cons in Hl as [Hm Hl].
    assert (Hrest : ∀ t, t ∈ schedule_from t0 (S i) l →
                         handler t ≠ RevealFlash m ∧ handler t ≠ HideFlash m).
    { intros t (j & n & Hj & Ht)%elem_of_schedule_from.
      apply list_elem_of_lookup_2 in Hj.
      destruct Ht as [-> | ->]; cbn; split; congruence. }
    repeat apply NoDup_cons_2; [| |by apply IH].
    + intros [?|Hin]%elem_of_cons; [done|]. by apply Hrest in Hin as [? _].
    + intros Hin. by apply Hrest in Hin as [_ ?].
Qed.

Lemma queue_loaded_NoDup user w :
  queue w = [] → NoDup (document_order (doc w)) →
  NoDup (queue (exec onDOMContentLoaded user w)).
Proof.
  intros Hq Hnd. rewrite onDOMContentLoaded_spec. cbn [with_queue queue].
  rewrite enqueue_all_perm, Hq. cbn [app].
  by apply schedule_from_NoDup, flashes_NoDup.
Qed.

(** *** Pages with any number of banners *)

Lemma descendants_S fuel (st : gmap node element) n :
  descendants (S fuel) st n =
  match st !! n with
  | Some e => n :: flat_map (descendants fuel st) (childNodes e)
  | None => []
  end.
Proof. reflexivity. Qed.

Lemma filter_all {A} (P : A → Prop) `{!∀ x, Decision (P x)} (l : list A) :
  (∀ x, x ∈ l → P x) → filter P l = l.
Proof.
  induction l as [|x l IH]; intros Hl; [done|].
  rewrite filter_cons_True by (apply Hl; left). f_equal.
  apply IH. intros y Hy. apply Hl. by right.
Qed.

Lemma rows_lookup (e : element) a n k :
  (list_to_map ((λ k, (k, e)) <$> seq a n) : gmap node element) !! k =
  if decide (a ≤ k < a + n)%nat then Some e else None.
Proof.
  revert a. induction n as [|n IH]; intros a.
  - change (seq a 0) with (@nil nat). rewrite fmap_nil, list_to_map_nil.
    rewrite lookup_empty. case_decide; [lia|done].
  - change (seq a (S n)) with (a :: seq (S a) n).
    rewrite fmap_cons, list_to_map_cons.
    destruct (decide (k = a)) as [->|Hk].
    + rewrite lookup_insert_eq. case_decide; [done|lia].
    + rewrite lookup_insert_ne by done. rewrite IH.
      repeat case_decide; (done || lia).
Qed.

Lemma rows_size (e : element) a n :
  size (list_to_map ((λ k, (k, e)) <$> seq a n) : gmap node element) = n.
Proof.
  revert a. induction n as [|n IH]; intros a.
  - done.
  - change (seq a (S n)) with (a :: seq (S a) n).
    rewrite fmap_cons, list_to_map_cons, map_size_insert_None, IH; [done|].
    rewrite rows_lookup. case_decide; [lia|done].
Qed.

Lemma banners_html n :
  store (doc (banners n)) !! 0 = Some (el "html" [] None [1]).
Proof.
  unfold banners, page_of. cbn [doc store].
  by rewrite list_to_map_cons, lookup_insert_eq.
Qed.

Lemma banners_body n :
  store (doc (banners n)) !! 1 = Some (el "body" [] (Some 0) (seq 2 n)).
Proof.
  unfold banners, page_of. cbn [doc store].
  rewrite !list_to_map_cons, lookup_insert_ne by done.
  by rewrite lookup_insert_eq.
Qed.

Lemma banners_banner n k :
  (2 ≤ k < 2 + n)%nat →
  store (doc (banners n)) !! k = Some (el "div" ["alert"] (Some 1) []).
Proof.
  intros Hk. unfold banners, page_of. cbn [doc store].
  rewrite !list_to_map_cons, !lookup_insert_ne by lia.
  rewrite rows_lookup. case_decide; [done|lia].
Qed.

Lemma banners_size n : size (store (doc (banners n))) = S (S n).
Proof.
  unfold banners, page_of. cbn [doc store]. rewrite !list_to_map_cons.
  rewrite map_size_insert_None.
  - rewrite map_size_insert_None, rows_size; [done|].
    rewrite rows_lookup. case_decide; [lia|done].
  - rewrite lookup_insert_ne by done. rewrite rows_lookup.
    case_decide; [lia|done].
Qed.

Lemma banners_document_order n :
  document_order (doc (banners n)) = 0 :: 1 :: seq 2 n.
Proof.
  unfold document_order. rewrite banners_size.
  change (documentElement (doc (banners n))) with 0.
  rewrite descendants_S, banners_html. cbn [childNodes el flat_map].
  rewrite descendants_S, banners_body. cbn [childNodes el].
  rewrite app_nil_r. do 2 f_equal.
  destruct n as [|m]; [done|].
  assert (Hl : ∀ l : list node, (∀ k, k ∈ l → (2 ≤ k < 2 + S m)%nat) →
             flat_map (descendants (S m) (store (doc (banners (S m))))) l = l).
  { induction l as [|k l IH]; intros Hl; [done|].
    cbn [flat_map]. rewrite descendants_S, banners_banner by (apply Hl; left).
    cbn [childNodes el flat_map app]. f_equal.
    apply IH. intros j Hj. apply Hl. by right. }
  apply Hl. intros k Hk%elem_of_seq. lia.
Qed.

Lemma banners_NoDup n : NoDup (document_order (doc (banners n))).
Proof.
  rewrite banners_document_order. repeat apply NoDup_cons_2.
  - intros [?|Hin%elem_of_seq]%elem_of_cons; [done|lia].
  - intros Hin%elem_of_seq. lia.
  - apply NoDup_seq.
Qed.

Lemma banners_flashes n : flashes (banners n) = seq 2 n.
Proof.
  unfold flashes, select_all. rewrite banners_document_order.
  rewrite filter_cons_False
    by (unfold selects; rewrite banners_html; apply Is_true_false; reflexivity).
  rewrite filter_cons_False
    by (unfold selects; rewrite banners_body; apply Is_true_false; reflexivity).
  apply filter_all. intros k Hk%elem_of_seq.
  unfold selects. rewrite banners_banner by lia.
  apply Is_true_true. reflexivity.
Qed.

(** On the page with [n] banners, the one at index [i] has one reveal
    timer, and its delay is [i × 100] after the conversion to a 32-bit
    integer. *)
Lemma banners_reveal user n i d :
  (i < n)%nat →
  reveals_at user (banners n) (2 + i) d ↔ d = timeout_ms (Z.of_nat i * 100).
Proof.
  intros Hi.
  assert (Hl : flashes (banners n) !! i = Some (2 + i))
    by (rewrite banners_flashes; by apply lookup_seq_lt).
  unfold reveals_at. split.
  - intros Ht.
    apply (reveal_timer_unique user (banners n) i (2 + i)) in Ht;
      [|done|apply banners_NoDup|done..].
    injection Ht as Ht. lia.
  - intros ->. apply elem_of_queue_loaded. right. exists i, (2 + i). auto.
Qed.

(** C4, as stated: "for every element at index [i] the addition of [show]
    is scheduled at a delay of [i × 100] ms".  [setTimeout] takes its delay
    as a 32-bit signed integer: on a page with 21474838 banners the last
    one, at index 21474837, is given the delay 2147483700, which wraps to a
    negative number, and its reveal timer is due at once. *)
Lemma reveal_delay_wraps :
  flashes (banners (Z.to_nat 21474838)) !! Z.to_nat 21474837
    = Some (2 + Z.to_nat 21474837) ∧
  (Z.of_nat (Z.to_nat 21474837) * 100 = 2147483700)%Z ∧
  timeout_ms 2147483700 = 0%Z ∧
  reveals_at (answers Null) (banners (Z.to_nat 21474838))
    (2 + Z.to_nat 21474837) 0 ∧
  ¬ reveals_at (answers Null) (banners (Z.to_nat 21474838))
      (2 + Z.to_nat 21474837) 2147483700 ∧
  ¬ (∀ user w i n,
       StronglySorted due_le (queue w) → flashes w !! i = Some n →
       reveals_at user w n (Z.of_nat i * 100)).
Proof.
  assert (Hi : (Z.to_nat 21474837 < Z.to_nat 21474838)%nat)
    by (apply Z2Nat.inj_lt; lia).
  assert (Hd : (Z.of_nat (Z.to_nat 21474837) * 100 = 2147483700)%Z)
    by (rewrite Z2Nat.id; [reflexivity|lia]).
  assert (Hw : timeout_ms 2147483700 = 0%Z) by reflexivity.
  assert (Hl : flashes (banners (Z.to_nat 21474838)) !! Z.to_nat 21474837
               = Some (2 + Z.to_nat 21474837)).
  { rewrite banners_flashes. apply lookup_seq_lt, Hi. }
  assert (Hno : ¬ reveals_at (answers Null) (banners (Z.to_nat 21474838))
                    (2 + Z.to_nat 21474837) 2147483700).
  { rewrite (banners_reveal _ _ _ _ Hi), Hd, Hw. discriminate. }
  split; [exact Hl|]. split; [exact Hd|]. split; [exact Hw|].
  split; [|split; [exact Hno|]].
  - apply (banners_reveal _ _ _ _ Hi). rewrite Hd. symmetry. exact Hw.
  - intros H. apply Hno. rewrite <- Hd.
    apply (H (answers Null) (banners (Z.to_nat 21474838))
             (Z.to_nat 21474837) (2 + Z.to_nat 21474837)).
    + apply SSorted_nil.
    + exact Hl.
Qed.




(** C7: the script changes matched elements only in their class list (the
    token [show] is added) and their inline style ([display] is set to
    ['none']); every other property of every element stays as it was, an
    element that is not in the NodeList (in particular one without the
    class [alert]) is left exactly as it was, no element appears or
    disappears, and once all timers have fired each matched element has
    got both changes. *)
Theorem flash_frame user w k n e :
  queue w = [] → store (doc w) !! n = Some e →
  dom (store (doc (page_after k user w))) = dom (store (doc w)) ∧
  log (page_after k user w) = log w ∧
  ∃ e', store (doc (page_after k user w)) !! n = Some e' ∧
    tagName e' = tagName e ∧ props e' = props e ∧
    parentNode e' = parentNode e ∧ childNodes e' = childNodes e ∧
    (classList e' = classList e ∨
     classList e' = add_token "show" (classList e)) ∧
    (style e' = style e ∨ style e' = <["display":="none"]> (style e)) ∧
    (n ∉ flashes w → e' = e) ∧
    ("alert" ∉ classList e → e' = e) ∧
    (n ∈ flashes w →
     (length (queue (exec onDOMContentLoaded user w)) ≤ k)%nat →
     e' = set_style "display" "none"
            (set_classList (add_token "show" (classList e)) e)).
Proof.
  intros Hq Hn. split; [|split].
  - apply set_eq. intros m.
    by rewrite !elem_of_dom, page_after_lookup, fmap_is_Some.
  - by rewrite page_after_spec.
  - set (ts := take k (queue (exec onDOMContentLoaded user w))).
    exists (touched ts n e). rewrite page_after_lookup, Hn. fold ts.
    destruct (touched_frame ts n e) as (? & ? & ? & ? & ? & ?).
    repeat (split; [done|]).
    assert (Hout : n ∉ flashes w → touched ts n e = e).
    { intros Hnot. apply touched_untouched.
      - intros (t & Ht & Hin)%list_elem_of_fmap.
        apply elem_of_take in Hin as (p & Hp%list_elem_of_lookup_2 & _).
        destruct (queue_loaded_inv user w t Hq Hp) as (j & m & Hj & [-> | ->]);
          [|done].
        cbn in Ht. injection Ht as ->. by apply list_elem_of_lookup_2 in Hj.
      - intros (t & Ht & Hin)%list_elem_of_fmap.
        apply elem_of_take in Hin as (p & Hp%list_elem_of_lookup_2 & _).
        destruct (queue_loaded_inv user w t Hq Hp) as (j & m & Hj & [-> | ->]);
          [done|].
        cbn in Ht. injection Ht as ->. by apply list_elem_of_lookup_2 in Hj. }
    split; [done|]. split.
    + intros Hcls. apply Hout. intros (_ & e0 & He0 & ?)%flashes_selected.
      by simplify_eq.
    + intros [i Hi]%list_elem_of_lookup_1 Hk.
      subst ts. rewrite take_ge by done. unfold touched.
      rewrite !bool_decide_true; [done| |].
      * apply (list_elem_of_fmap_2' handler _
                 (Timer (now w + timeout_ms (Z.of_nat i * 100)) (RevealFlash n)));
          [|done].
        apply elem_of_queue_loaded. right. exists i, n. auto.
      * apply (list_elem_of_fmap_2' handler _ (Timer (now w + 5000) (HideFlash n)));
          [|done].
        apply elem_of_queue_loaded. right. exists i, n. auto.
Qed.

Lemma flash_frame_witness :
  dom (store (doc (page_after 6 (answers Null) flash_page))) =
    dom (store (doc flash_page)) ∧
  log (page_after 6 (answers Null) flash_page) = log flash_page ∧
  ∃ e', store (doc (page_after 6 (answers Null) flash_page)) !! 4 = Some e' ∧
    tagName e' = "span" ∧ props e' = ∅ ∧
    parentNode e' = Some 3 ∧ childNodes e' = [] ∧
    (classList e' = ["alert"; "show"] ∨
     classList e' = add_token "show" ["alert"; "show"]) ∧
    (style e' = ∅ ∨ style e' = <["display":="none"]> ∅) ∧
    (4 ∉ flashes flash_page → e' = el "span" ["alert"; "show"] (Some 3) []) ∧
    ("alert" ∉ ["alert"; "show"] → e' = el "span" ["alert"; "show"] (Some 3) []) ∧
    (4 ∈ flashes flash_page →
     (length (queue (exec onDOMContentLoaded (answers Null) flash_page)) ≤ 6)%nat →
     e' = set_style "display" "none"
            (set_classList (add_token "show" ["alert"; "show"])
               (el "span" ["alert"; "show"] (Some 3) []))).
Proof.
  apply (flash_frame (answers Null) flash_page 6 4
           (el "span" ["alert"; "show"] (Some 3) [])); reflexivity.
Defined.




(** The bound is tight: the banner at index 50 is due for reveal at 5000 ms,
    like every hide, but its reveal timer was set before its hide timer, so
    it is revealed for a moment. *)
Example banner_50_revealed :
  flashes (banners 52) !! 50 = Some 52 ∧
  revealed (doc (page_after 101 (answers Null) (banners 52))) 52.
Proof.
  split; [by vm_compute|].
  eexists. split; [by vm_compute|]. split.
  - apply (bool_decide_unpack _). by vm_compute.
  - by vm_compute.
Qed.

End FlashFacts.

(** ** Further properties of [resetPassword] *)

Module AdminExtras.
Import Browser Admin BrowserFacts AdminFacts Pages.

(** *** What a call leaves alone *)

Lemma keeps_page_ret {A} (a : A) : keeps_page (mret a).
Proof. by intros user w. Qed.

Lemma keeps_page_bind {A B} (m : script A) (k : A → script B) :
  keeps_page m → (∀ a, keeps_page (k a)) → keeps_page (m ≫= k).
Proof.
  intros Hm Hk user w. unfold mbind, script_bind.
  destruct (Hm user w) as (H1 & H2 & H3 & H4 & H5 & H6).
  destruct (m user w) as [a w1]. cbn [snd] in *.
  destruct (Hk a user w1) as (K1 & K2 & K3 & K4 & K5 & K6).
  repeat split; [congruence..|]. set_solver.
Qed.

Lemma keeps_page_prompt message : keeps_page (prompt message).
Proof. by intros user w. Qed.

Lemma keeps_page_createElement tag : keeps_page (createElement tag).
Proof.
  intros user w. repeat split. cbn -[fresh]. rewrite dom_insert_L. set_solver.
Qed.

Lemma keeps_page_setProperty n k v : keeps_page (setProperty n k v).
Proof. intros user w. repeat split. cbn. by rewrite dom_alter_L. Qed.

Lemma dom_detach c (st : gmap nat element) : dom (detach c st) = dom st.
Proof.
  unfold detach. destruct (st !! c ≫= parentNode); [|done]. by rewrite dom_alter_L.
Qed.

Lemma keeps_page_appendChild parent child : keeps_page (appendChild parent child).
Proof.
  intros user w. repeat split. cbn -[detach].
  by rewrite !dom_alter_L, dom_detach.
Qed.

Lemma keeps_page_document_body : keeps_page document_body.
Proof. by intros user w. Qed.

Lemma keeps_page_submit form : keeps_page (submit form).
Proof. intros user w. unfold submit. by destruct (store (doc w) !! form). Qed.

Create HintDb keeps_page.
#[export] Hint Resolve keeps_page_ret keeps_page_bind keeps_page_prompt
  keeps_page_createElement keeps_page_setProperty keeps_page_appendChild
  keeps_page_document_body keeps_page_submit : keeps_page.

Lemma resetPassword_keeps_page userId username :
  keeps_page (resetPassword userId username).
Proof.
  unfold resetPassword. apply keeps_page_bind; [apply keeps_page_prompt|].
  intros newPass. destruct (ToBoolean newPass); eauto 20 with keeps_page.
Qed.

(** X2: whatever the user answers, a call changes neither the clock nor the
    pending timers nor the registered listeners, keeps the root and body
    references, and removes no element from the page.  On a page with a
    body, every element that was there is still there and is the element it
    was, in tag, properties, class list, style, parent and children; the one
    exception is [body] after an accepted prompt, which has gained the new
    form as its last child and is otherwise as it was. *)
Theorem resetPassword_leaves_page_alone userId username user w :
  now (exec (resetPassword userId username) user w) = now w ∧
  queue (exec (resetPassword userId username) user w) = queue w ∧
  listeners (exec (resetPassword userId username) user w) = listeners w ∧
  documentElement (doc (exec (resetPassword userId username) user w)) =
    documentElement (doc w) ∧
  body (doc (exec (resetPassword userId username) user w)) = body (doc w) ∧
  dom (store (doc w)) ⊆ dom (store (doc (exec (resetPassword userId username) user w))) ∧
  (is_Some (store (doc w) !! body (doc w)) →
   ∀ n e, store (doc w) !! n = Some e →
     store (doc (exec (resetPassword userId username) user w)) !! n =
       Some (if bool_decide (n = body (doc w)) &&
                ToBoolean (user (prompt_message username))
             then set_childNodes (childNodes e ++ [form_ref w]) e
             else e)).
Proof.
  destruct (resetPassword_keeps_page userId username user w)
    as (H1 & H2 & H3 & H4 & H5 & H6).
  do 6 (split; [assumption|]).
  intros [be Hb] n e Hn.
  destruct (ToBoolean (user (prompt_message username))) eqn:Hu.
  - destruct (user (prompt_message username)) as [|[|c p]] eqn:Hp; try done.
    rewrite (resetPassword_accepted _ _ _ _ _ _ Hp ltac:(done) Hb).
    cbn [with_log with_store doc store].
    destruct (input_ref_fresh w) as [Hi _]. pose proof (form_ref_fresh w) as Hf.
    rewrite !lookup_insert_ne by congruence.
    destruct (decide (n = body (doc w))) as [->|Hnb].
    + rewrite lookup_insert_eq, bool_decide_true by done. cbn [andb].
      congruence.
    + rewrite lookup_insert_ne, bool_decide_false by done. done.
  - rewrite resetPassword_declined by done. cbn [with_log doc store].
    by rewrite andb_false_r.
Qed.

Lemma resetPassword_leaves_page_alone_witness :
  store (doc (exec (resetPassword "7" "alice") (answers (Str "s3cret")) admin_page))
    !! 1 = Some (el "body" [] (Some 0) [2; 3]) ∧
  store (doc (exec (resetPassword "7" "alice") (answers (Str "s3cret")) admin_page))
    !! 2 = Some (el "button" ["btn"] (Some 1) []).
Proof.
  destruct (resetPassword_leaves_page_alone "7" "alice" (answers (Str "s3cret"))
              admin_page) as (_ & _ & _ & _ & _ & _ & H).
  split.
  - apply (H ltac:(by eexists) 1 (el "body" [] (Some 0) [2])). reflexivity.
  - apply (H ltac:(by eexists) 2 (el "button" ["btn"] (Some 1) [])). reflexivity.
Defined.

(** *** The user name only reaches the prompt *)

Lemma trace_declined userId username user w :
  ToBoolean (user (prompt_message username)) = false →
  trace userId username user w = [Prompted (prompt_message username)].
Proof.
  intros Hu. unfold trace. rewrite resetPassword_declined by done.
  cbn [with_log log]. by rewrite drop_app_length.
Qed.

Lemma trace_accepted userId username p user w :
  user (prompt_message username) = Str p → p ≠ "" →
  is_Some (store (doc w) !! body (doc w)) →
  trace userId username user w =
    [Prompted (prompt_message username);
     Submitted (form_ref w) "POST" (action_url userId) [("new_password", p)]].
Proof.
  intros Hu Hp [be Hb]. unfold trace.
  rewrite (resetPassword_accepted _ _ _ _ _ _ Hu Hp Hb).
  cbn [with_log with_store log]. by rewrite <-app_assoc, drop_app_length.
Qed.

(** X1: the user name is used for the text of the prompt and for nothing
    else: two calls for the same [userId] that get the same answer leave the
    same document and make the same submission, whatever the user names. *)
Theorem submission_independent_of_username userId name1 name2 user w :
  user (prompt_message name1) = user (prompt_message name2) →
  is_Some (store (doc w) !! body (doc w)) →
  doc (exec (resetPassword userId name1) user w) =
    doc (exec (resetPassword userId name2) user w) ∧
  filter (λ ev, is_submission ev) (trace userId name1 user w) =
    filter (λ ev, is_submission ev) (trace userId name2 user w).
Proof.
  intros Hsame Hbody.
  destruct (user (prompt_message name1)) as [|[|c p]] eqn:H1; symmetry in Hsame.
  - rewrite !resetPassword_declined, !trace_declined by (by rewrite ?H1, ?Hsame).
    done.
  - rewrite !resetPassword_declined, !trace_declined by (by rewrite ?H1, ?Hsame).
    done.
  - rewrite (trace_accepted _ _ _ _ _ H1 ltac:(done) Hbody).
    rewrite (trace_accepted _ _ _ _ _ Hsame ltac:(done) Hbody).
    destruct Hbody as [be Hb].
    rewrite (resetPassword_accepted _ _ _ _ _ _ H1 ltac:(done) Hb).
    rewrite (resetPassword_accepted _ _ _ _ _ _ Hsame ltac:(done) Hb).
    done.
Qed.

Lemma submission_independent_of_username_witness :
  doc (exec (resetPassword "7" "alice") (answers (Str "s3cret")) admin_page) =
    doc (exec (resetPassword "7" "bob") (answers (Str "s3cret")) admin_page) ∧
  filter (λ ev, is_submission ev)
    (trace "7" "alice" (answers (Str "s3cret")) admin_page) =
  filter (λ ev, is_submission ev)
    (trace "7" "bob" (answers (Str "s3cret")) admin_page).
Proof.
  apply (submission_independent_of_username "7" "alice" "bob"
           (answers (Str "s3cret")) admin_page); [reflexivity | by eexists].
Defined.

(** *** Calls in a row *)

(** X4: the script never takes the form it created out of the page again:
    two accepted calls in a row leave two different forms as the last two
    children of body, in the order of the calls, the first one untouched by
    the second call, and the log shows prompt, submission, prompt,
    submission. *)
Theorem resetPassword_twice id1 name1 p1 id2 name2 p2 user w :
  user (prompt_message name1) = Str p1 → p1 ≠ "" →
  user (prompt_message name2) = Str p2 → p2 ≠ "" →
  is_Some (store (doc w) !! body (doc w)) →
  let w1 := exec (resetPassword id1 name1) user w in
  let w2 := exec (resetPassword id2 name2) user w1 in
  ∃ form1 form2,
    form1 ≠ form2 ∧
    childNodes <$> store (doc w2) !! body (doc w) =
      (λ e, childNodes e ++ [form1; form2]) <$> store (doc w) !! body (doc w) ∧
    is_Some (store (doc w1) !! form1) ∧
    store (doc w2) !! form1 = store (doc w1) !! form1 ∧
    log w2 = log w ++
      [Prompted (prompt_message name1);
       Submitted form1 "POST" (action_url id1) [("new_password", p1)];
       Prompted (prompt_message name2);
       Submitted form2 "POST" (action_url id2) [("new_password", p2)]].
Proof.
  intros Hu1 Hp1 Hu2 Hp2 [be Hb] w1 w2.
  destruct (input_ref_fresh w) as [Hi Hif]. pose proof (form_ref_fresh w) as Hf.
  assert (Hbf : body (doc w) ≠ form_ref w) by congruence.
  assert (Hbi : body (doc w) ≠ input_ref w) by congruence.
  assert (Hw1 : w1 = _) by apply (resetPassword_accepted _ _ _ _ _ _ Hu1 Hp1 Hb).
  assert (Hb1 : store (doc w1) !! body (doc w1) =
                Some (set_childNodes (childNodes be ++ [form_ref w]) be)).
  { rewrite Hw1. cbn [with_log with_store doc store body].
    rewrite !lookup_insert_ne by done. apply lookup_insert_eq. }
  assert (Hf1 : is_Some (store (doc w1) !! form_ref w)).
  { rewrite Hw1. cbn [with_log with_store doc store].
    rewrite lookup_insert_ne, lookup_insert_eq by done. by eexists. }
  assert (Hbody : body (doc w1) = body (doc w)) by (by rewrite Hw1).
  assert (Hlog1 : log w1 = (log w ++ [Prompted (prompt_message name1)]) ++
            [Submitted (form_ref w) "POST" (action_url id1) [("new_password", p1)]])
    by (by rewrite Hw1).
  destruct (input_ref_fresh w1) as [Hi1 Hif1]. pose proof (form_ref_fresh w1) as Hff1.
  assert (Hw2 : w2 = _) by apply (resetPassword_accepted _ _ _ _ _ _ Hu2 Hp2 Hb1).
  clearbody w1 w2. subst w2.
  exists (form_ref w), (form_ref w1).
  cbn [with_log with_store doc store log].
  assert (Hne : form_ref w ≠ form_ref w1).
  { intros Heq. rewrite Heq, Hff1 in Hf1. by destruct Hf1. }
  assert (Hnei : form_ref w ≠ input_ref w1).
  { intros Heq. rewrite Heq, Hi1 in Hf1. by destruct Hf1. }
  split; [done|]. split.
  { rewrite <-Hbody.
    rewrite lookup_insert_ne by congruence.
    rewrite lookup_insert_ne by congruence.
    rewrite lookup_insert_eq, Hbody, Hb. cbn. by rewrite <-app_assoc. }
  split; [done|]. split.
  { rewrite Hbody in *. by rewrite !lookup_insert_ne by congruence. }
  rewrite Hlog1. by rewrite <-!app_assoc.
Qed.

Lemma resetPassword_twice_witness :
  ∃ form1 form2,
    form1 ≠ form2 ∧
    childNodes <$>
      store (doc (exec (resetPassword "8" "bob") (answers (Str "s3cret"))
                    (exec (resetPassword "7" "alice") (answers (Str "s3cret"))
                       admin_page))) !! 1 =
      Some [2; form1; form2] ∧
    is_Some (store (doc (exec (resetPassword "7" "alice") (answers (Str "s3cret"))
                           admin_page)) !! form1) ∧
    store (doc (exec (resetPassword "8" "bob") (answers (Str "s3cret"))
                  (exec (resetPassword "7" "alice") (answers (Str "s3cret"))
                     admin_page))) !! form1 =
      store (doc (exec (resetPassword "7" "alice") (answers (Str "s3cret"))
                    admin_page)) !! form1 ∧
    log (exec (resetPassword "8" "bob") (answers (Str "s3cret"))
           (exec (resetPassword "7" "alice") (answers (Str "s3cret")) admin_page)) =
      [Prompted "Enter new password for alice:";
       Submitted form1 "POST" "/admin/reset_password/7" [("new_password", "s3cret")];
       Prompted "Enter new password for bob:";
       Submitted form2 "POST" "/admin/reset_password/8" [("new_password", "s3cret")]].
Proof.
  apply (resetPassword_twice "7" "alice" "s3cret" "8" "bob" "s3cret"
           (answers (Str "s3cret")) admin_page);
    [reflexivity | discriminate | reflexivity | discriminate | by eexists].
Defined.

(** *** Parent and child links *)

Section links.
Context (st : gmap nat element) (b f i : nat) (be F I : element).
Hypothesis Hb : st !! b = Some be.
Hypothesis Hf : st !! f = None.
Hypothesis Hi : st !! i = None.
Hypothesis Hif : i ≠ f.
Hypothesis HFp : parentNode F = Some b.
Hypothesis HFc : childNodes F = [i].
Hypothesis HIp : parentNode I = Some f.
Hypothesis HIc : childNodes I = [].

Local Abbreviation st' :=
  (<[i:=I]> (<[f:=F]> (<[b:=set_childNodes (childNodes be ++ [f]) be]> st))).

Lemma linked_parent_kept c :
  is_Some (st !! c) → parentNode <$> st' !! c = parentNode <$> st !! c.
Proof using All.
  intros [ec Hc].
  rewrite !lookup_insert_ne by congruence.
  destruct (decide (b = c)) as [<-|].
  - by rewrite lookup_insert_eq, Hb.
  - by rewrite lookup_insert_ne.
Qed.

Lemma linked_children_kept p x :
  x ∈ from_option childNodes [] (st !! p) →
  x ∈ from_option childNodes [] (st' !! p).
Proof using All.
  intros Hx. destruct (st !! p) as [ep|] eqn:Hp; [|by apply elem_of_nil in Hx].
  rewrite !lookup_insert_ne by congruence.
  destruct (decide (b = p)) as [<-|].
  - rewrite lookup_insert_eq. rewrite Hb in Hp. injection Hp as <-.
    cbn in *. set_solver.
  - by rewrite lookup_insert_ne, Hp.
Qed.

Lemma links_agree_appended : links_agree st → links_agree st'.
Proof using All.
  assert (Hbf : b ≠ f) by congruence. assert (Hbi : b ≠ i) by congruence.
  intros [Hdown Hup]. split.
  - apply map_Forall_lookup. intros p e Hp.
    apply lookup_insert_Some in Hp as [[<- <-]|[? Hp]].
    { rewrite HIc. constructor. }
    apply lookup_insert_Some in Hp as [[<- <-]|[? Hp]].
    { rewrite HFc. repeat constructor. rewrite lookup_insert_eq. cbn.
      by rewrite HIp. }
    apply lookup_insert_Some in Hp as [[<- <-]|[? Hp]].
    + cbn [set_childNodes childNodes]. apply Forall_app. split.
      * pose proof (map_Forall_lookup_1 _ _ _ _ Hdown Hb) as Hkids.
        eapply Forall_impl; [exact Hkids|]. intros c Hc. cbn beta in *.
        rewrite linked_parent_kept; [done|].
        by destruct (st !! c); [eexists|].
      * repeat constructor.
        rewrite lookup_insert_ne, lookup_insert_eq by done. cbn.
        by rewrite HFp.
    + pose proof (map_Forall_lookup_1 _ _ _ _ Hdown Hp) as Hkids.
      eapply Forall_impl; [exact Hkids|]. intros c Hc. cbn beta in *.
      rewrite linked_parent_kept; [done|].
      by destruct (st !! c); [eexists|].
  - apply map_Forall_lookup. intros c ec Hc. unfold parent_lists.
    apply lookup_insert_Some in Hc as [[<- <-]|[? Hc]].
    { rewrite HIp, lookup_insert_ne, lookup_insert_eq by done. cbn.
      rewrite HFc. set_solver. }
    apply lookup_insert_Some in Hc as [[<- <-]|[? Hc]].
    { rewrite HFp, !lookup_insert_ne, lookup_insert_eq by done. cbn. set_solver. }
    apply lookup_insert_Some in Hc as [[<- <-]|[? Hc]].
    + cbn [set_childNodes parentNode].
      pose proof (map_Forall_lookup_1 _ _ _ _ Hup Hb) as Hpar.
      unfold parent_lists in Hpar. destruct (parentNode be) as [p|]; [|done].
      by apply linked_children_kept.
    + pose proof (map_Forall_lookup_1 _ _ _ _ Hup Hc) as Hpar.
      unfold parent_lists in Hpar. destruct (parentNode ec) as [p|]; [|done].
      by apply linked_children_kept.
Qed.
End links.

(** X3: a call keeps the parent and child links of the page in agreement:
    if before the call every child names its parent and every parent lists
    its child, the same holds after it, with the new form under body and the
    new input under the form. *)
Theorem resetPassword_keeps_links userId username user w :
  links_agree (store (doc w)) →
  is_Some (store (doc w) !! body (doc w)) →
  links_agree (store (doc (exec (resetPassword userId username) user w))).
Proof.
  intros Hlinks [be Hb].
  destruct (user (prompt_message username)) as [|[|c p]] eqn:Hu.
  - by rewrite resetPassword_declined by (by rewrite Hu).
  - by rewrite resetPassword_declined by (by rewrite Hu).
  - rewrite (resetPassword_accepted _ _ _ _ _ _ Hu ltac:(done) Hb).
    cbn [with_log with_store doc store].
    destruct (input_ref_fresh w) as [Hi Hif].
    by apply links_agree_appended; [| apply form_ref_fresh | ..].
Qed.

Lemma resetPassword_keeps_links_witness :
  links_agree (store (doc admin_page)) ∧
  links_agree
    (store (doc (exec (resetPassword "7" "alice") (answers (Str "s3cret")) admin_page))).
Proof.
  assert (H : links_agree (store (doc admin_page))).
  { split; decide_by_compute. }
  split; [exact H|].
  apply (resetPassword_keeps_links "7" "alice" (answers (Str "s3cret")) admin_page);
    [exact H | by eexists].
Defined.

End AdminExtras.

(** ** Further properties of the flash script *)

Module FlashExtras.
Import Browser Flash BrowserFacts FlashFacts Pages.

(** *** Registration and dispatch *)

Lemma loaded_with_listeners f user w :
  exec onDOMContentLoaded user (with_listeners f w) =
  with_listeners f (exec onDOMContentLoaded user w).
Proof. by rewrite !onDOMContentLoaded_spec. Qed.

(** X5: the script itself only registers its listener; the timers are set
    when [DOMContentLoaded] is dispatched, and the dispatch of any other
    event sets none. *)
Theorem flash_js_registers user w type :
  listeners w = [] → type ≠ "DOMContentLoaded" →
  exec flash_js user w =
    with_listeners (λ _, [("DOMContentLoaded", InitFlashes)]) w ∧
  exec (flash_js;; dispatchEvent "DOMContentLoaded") user w =
    with_listeners (λ _, [("DOMContentLoaded", InitFlashes)])
      (exec onDOMContentLoaded user w) ∧
  exec (flash_js;; dispatchEvent type) user w = exec flash_js user w.
Proof.
  intros Hl Htype.
  assert (Hreg : exec flash_js user w =
            with_listeners (λ _, [("DOMContentLoaded", InitFlashes)]) w).
  { unfold exec, flash_js, addEventListener, modify, with_listeners. cbn [snd].
    by rewrite Hl. }
  split; [done|]. split.
  - by rewrite flash_js_loaded, loaded_with_listeners.
  - rewrite exec_bind. change ((flash_js user w).2) with (exec flash_js user w).
    rewrite Hreg. unfold exec, dispatchEvent.
    cbn [with_listeners listeners listen_all].
    rewrite bool_decide_false by congruence. done.
Qed.

Lemma flash_js_registers_witness :
  exec flash_js (answers Null) flash_page =
    with_listeners (λ _, [("DOMContentLoaded", InitFlashes)]) flash_page ∧
  exec (flash_js;; dispatchEvent "DOMContentLoaded") (answers Null) flash_page =
    with_listeners (λ _, [("DOMContentLoaded", InitFlashes)])
      (exec onDOMContentLoaded (answers Null) flash_page) ∧
  exec (flash_js;; dispatchEvent "load") (answers Null) flash_page =
    exec flash_js (answers Null) flash_page.
Proof.
  apply (flash_js_registers (answers Null) flash_page "load");
    [reflexivity | discriminate].
Defined.

(** *** A page without banners *)

Lemma run_idle k user w : queue w = [] → run k user w = w.
Proof. intros Hq. destruct k as [|k]; [done|]. cbn. unfold tick. by rewrite Hq. Qed.

(** X6: on a page where nothing matches [.alert] the listener sets no timer,
    and the page stays exactly as it was however long one waits. *)
Theorem no_banner_no_change user w k :
  flashes w = [] → queue w = [] →
  exec onDOMContentLoaded user w = w ∧ page_after k user w = w.
Proof.
  intros Hfl Hq.
  assert (H : exec onDOMContentLoaded user w = w).
  { rewrite onDOMContentLoaded_spec, Hfl. by destruct w as [[? ? ?] ? ? ? ?]. }
  split; [done|]. unfold page_after. rewrite H. by apply run_idle.
Qed.

Lemma no_banner_no_change_witness :
  exec onDOMContentLoaded (answers Null) admin_page = admin_page ∧
  page_after 7 (answers Null) admin_page = admin_page.
Proof.
  apply (no_banner_no_change (answers Null) admin_page 7); reflexivity.
Defined.

(** *** Nothing is undone *)

Lemma run_add a b user w : run (a + b) user w = run b user (run a user w).
Proof.
  revert w. induction a as [|a IH]; intros w; [done|].
  cbn [Nat.add run]. destruct (tick user w) as [w'|] eqn:Ht; [apply IH|].
  unfold tick in Ht. destruct (queue w) eqn:Hq; [|done].
  by rewrite run_idle.
Qed.

Lemma touched_keeps ts n e :
  (∀ c, c ∈ classList e → c ∈ classList (touched ts n e)) ∧
  (style e !! "display" = Some "none" →
   style (touched ts n e) !! "display" = Some "none").
Proof.
  destruct (touched_frame ts n e) as (_ & _ & _ & _ & Hc & Hs). split.
  - intros c Hin. destruct Hc as [-> | ->]; [done|].
    unfold add_token. case_bool_decide; [done|].
    apply elem_of_app. by left.
  - intros Hnone. destruct Hs as [-> | ->]; [done|]. apply lookup_insert_eq.
Qed.

(** X9: the script only ever adds: from one moment to a later one no
    element loses a class (so [show] is never taken away again), and an
    inline [display: none] is never lifted. *)
Theorem flash_never_undoes user w k k' n e :
  (k ≤ k')%nat →
  store (doc (page_after k user w)) !! n = Some e →
  ∃ e', store (doc (page_after k' user w)) !! n = Some e' ∧
    (∀ c, c ∈ classList e → c ∈ classList e') ∧
    (style e !! "display" = Some "none" → style e' !! "display" = Some "none").
Proof.
  intros Hk He.
  replace k' with (k + (k' - k)) by lia.
  unfold page_after in *. rewrite run_add, run_spec. cbn [doc store].
  rewrite fired_lookup, He. eexists. split; [done|]. apply touched_keeps.
Qed.

Lemma flash_never_undoes_witness :
  ∃ e', store (doc (page_after 6 (answers Null) flash_page)) !! 2 = Some e' ∧
    (∀ c, c ∈ ["alert"; "show"] → c ∈ classList e') ∧
    ((∅ : gmap string string) !! "display" = Some "none" →
     style e' !! "display" = Some "none").
Proof.
  apply (flash_never_undoes (answers Null) flash_page 1 6 2
           (Element "div" ∅ ["alert"; "show"] ∅ (Some 1) []));
    [lia | reflexivity].
Defined.

(** *** The script comes to an end *)

Lemma schedule_from_length t0 i (l : list nat) :
  length (schedule_from t0 i l) = 2 * length l.
Proof.
  revert i. induction l as [|n l IH]; intros i; [done|].
  cbn [schedule_from length]. rewrite IH. lia.
Qed.

Lemma queue_loaded_length user w :
  length (queue (exec onDOMContentLoaded user w)) =
  length (queue w) + 2 * length (flashes w).
Proof.
  rewrite onDOMContentLoaded_spec. cbn [with_queue queue].
  by rewrite enqueue_all_perm, length_app, schedule_from_length.
Qed.

Lemma clock_after_ge ts t0 u : u ∈ ts → (fire_at u ≤ clock_after ts t0)%Z.
Proof.
  revert t0. induction ts as [|v ts IH]; intros t0 Hu.
  - by apply elem_of_nil in Hu.
  - change (clock_after (v :: ts) t0) with (clock_after ts (Z.max t0 (fire_at v))).
    apply elem_of_cons in Hu as [->|Hu].
    + pose proof (clock_after_lower ts (Z.max t0 (fire_at v))). lia.
    + by apply IH.
Qed.

(** X7: the listener sets exactly two timers for each matched element and
    none of them sets another: when they have all fired the queue is empty,
    the clock shows the later of 5000 ms and [(n - 1) × 100] ms after the
    listener ran ([n] the number of matched elements, with [(n - 1) × 100]
    at most 2147483647), and waiting longer changes nothing. *)
Theorem flash_completes user w k :
  queue w = [] → flashes w ≠ [] → (2 * length (flashes w) ≤ k)%nat →
  ((Z.of_nat (length (flashes w)) - 1) * 100 ≤ 2147483647)%Z →
  length (queue (exec onDOMContentLoaded user w)) = 2 * length (flashes w) ∧
  queue (page_after k user w) = [] ∧
  now (page_after k user w) =
    (now w + Z.max 5000 ((Z.of_nat (length (flashes w)) - 1) * 100))%Z ∧
  page_after k user w = page_after (2 * length (flashes w)) user w.
Proof.
  intros Hq Hne Hk Hfit.
  pose proof (queue_loaded_length user w) as Hlen. rewrite Hq in Hlen.
  cbn [length Nat.add] in Hlen.
  split; [done|]. rewrite !page_after_spec. cbn [queue now].
  rewrite !take_ge, !drop_ge by lia. split; [done|]. split; [|done].
  set (m := (now w + Z.max 5000 ((Z.of_nat (length (flashes w)) - 1) * 100))%Z).
  assert (Hupper : (clock_after (queue (exec onDOMContentLoaded user w)) (now w) ≤ m)%Z).
  { apply clock_after_upper; [subst m; lia|].
    apply Forall_forall. intros t Ht.
    destruct (queue_loaded_inv user w t Hq Ht) as (j & n & Hj & [-> | ->]);
      cbn [fire_at]; subst m; [|lia].
    apply lookup_lt_Some in Hj. rewrite timeout_ms_small by lia. lia. }
  destruct (flashes w) as [|n0 l] eqn:Hfl; [done|].
  assert (Hlast : ∃ nl, flashes w !! length l = Some nl).
  { apply lookup_lt_is_Some. rewrite Hfl. cbn. lia. }
  destruct Hlast as [nl Hnl]. cbn [length] in *.
  pose proof (clock_after_ge (queue (exec onDOMContentLoaded user w)) (now w)
                (Timer (now w + 5000) (HideFlash n0))) as Hhide.
  pose proof (clock_after_ge (queue (exec onDOMContentLoaded user w)) (now w)
                (Timer (now w + timeout_ms (Z.of_nat (length l) * 100))
                   (RevealFlash nl))) as Hrev.
  cbn [fire_at] in Hhide, Hrev. rewrite timeout_ms_small in Hrev by lia.
  assert ((now w + 5000 ≤ clock_after (queue (exec onDOMContentLoaded user w)) (now w))%Z).
  { apply Hhide, elem_of_queue_loaded. right. exists 0, n0. rewrite Hfl. auto. }
  assert ((now w + Z.of_nat (length l) * 100
             ≤ clock_after (queue (exec onDOMContentLoaded user w)) (now w))%Z).
  { apply Hrev, elem_of_queue_loaded. right. exists (length l), nl.
    rewrite timeout_ms_small by lia. auto. }
  subst m. lia.
Qed.

Lemma flash_completes_witness :
  length (queue (exec onDOMContentLoaded (answers Null) flash_page)) = 2 * 3 ∧
  queue (page_after 9 (answers Null) flash_page) = [] ∧
  now (page_after 9 (answers Null) flash_page) = 6000%Z ∧
  page_after 9 (answers Null) flash_page = page_after 6 (answers Null) flash_page.
Proof.
  apply (flash_completes (answers Null) flash_page 9);
    [reflexivity | discriminate | vm_compute; lia | vm_compute; discriminate].
Defined.

(** *** Timers due at the same time fire in the order they were set *)

Lemma enqueue_split t q :
  StronglySorted due_le q →
  ∃ q1 q2, q = q1 ++ q2 ∧ enqueue t q = q1 ++ t :: q2 ∧
    Forall (λ u, (fire_at u ≤ fire_at t)%Z) q1 ∧
    Forall (λ u, (fire_at t < fire_at u)%Z) q2.
Proof.
  induction q as [|u q IH]; intros Hq.
  - exists [], []. by repeat split.
  - apply StronglySorted_cons in Hq as [Hu Hq]. cbn [enqueue].
    case_decide as Hlt.
    + exists [], (u :: q). repeat split; [constructor|].
      constructor; [done|]. eapply Forall_impl; [exact Hu|].
      unfold due_le. intros; lia.
    + destruct (IH Hq) as (q1 & q2 & -> & -> & H1 & H2).
      exists (u :: q1), q2. repeat split; [|done].
      constructor; [lia|done].
Qed.

Lemma before_insert {A} (a b t : A) (l1 l2 : list A) :
  before a b (l1 ++ l2) → before a b (l1 ++ t :: l2).
Proof.
  intros (i & j & Hij & Hi & Hj).
  assert (Hshift : ∀ x y, (l1 ++ l2) !! x = Some y →
            (l1 ++ t :: l2) !! (if decide (x < length l1) then x else S x) = Some y).
  { intros x y Hx. case_decide.
    - rewrite lookup_app_l in Hx |- * by done. done.
    - rewrite lookup_app_r in Hx |- * by lia.
      by replace (S x - length l1) with (S (x - length l1)) by lia. }
  exists (if decide (i < length l1) then i else S i),
         (if decide (j < length l1) then j else S j).
  split; [repeat case_decide; lia|]. split; by apply Hshift.
Qed.

Lemma before_enqueue_old a b t q :
  StronglySorted due_le q → before a b q → before a b (enqueue t q).
Proof.
  intros Hq Hab. destruct (enqueue_split t q Hq) as (q1 & q2 & -> & -> & _).
  by apply before_insert.
Qed.

Lemma before_enqueue_new a t q :
  StronglySorted due_le q → a ∈ q → (fire_at a ≤ fire_at t)%Z →
  before a t (enqueue t q).
Proof.
  intros Hq Ha Hle. destruct (enqueue_split t q Hq) as (q1 & q2 & -> & -> & _ & H2).
  apply elem_of_app in Ha as [Ha|Ha].
  - apply list_elem_of_lookup_1 in Ha as [i Hi].
    exists i, (length q1). split; [by eapply lookup_lt_Some|]. split.
    + by rewrite lookup_app_l by (by eapply lookup_lt_Some).
    + by rewrite list_lookup_middle.
  - eapply Forall_forall in H2; [|exact Ha]. lia.
Qed.

Lemma before_enqueue_all a b ts q :
  StronglySorted due_le q → before a b q →
  before a b (foldl (λ q t, enqueue t q) q ts).
Proof.
  revert q. induction ts as [|t ts IH]; intros q Hq Hab; [done|].
  cbn [foldl]. apply IH; [by apply enqueue_sorted|by apply before_enqueue_old].
Qed.

(** The reveal timer of an element is set just before its hide timer, so it
    is ahead of it in the queue whenever it is not due later. *)
Lemma schedule_before t0 i (l : list nat) j n q :
  StronglySorted due_le q → l !! j = Some n →
  (Z.of_nat (i + j) * 100 ≤ 5000)%Z →
  before (Timer (t0 + Z.of_nat (i + j) * 100) (RevealFlash n))
         (Timer (t0 + 5000) (HideFlash n))
         (foldl (λ q t, enqueue t q) q (schedule_from t0 i l)).
Proof.
  revert i j q. induction l as [|m l IH]; intros i j q Hq Hj Hle; [done|].
  cbn [schedule_from foldl]. destruct j as [|j].
  - injection Hj as ->. rewrite Nat.add_0_r in *.
    rewrite (timeout_ms_small (Z.of_nat i * 100)) by lia.
    change (timeout_ms 5000) with 5000%Z.
    apply before_enqueue_all; [by do 2 apply enqueue_sorted|].
    apply before_enqueue_new; [by apply enqueue_sorted| |cbn; lia].
    apply elem_of_enqueue. by left.
  - replace (i + S j) with (S i + j) in * by lia.
    apply IH; [by do 2 apply enqueue_sorted|done|done].
Qed.

Lemma touched_not_hide ts n e :
  HideFlash n ∉ handler <$> ts → style (touched ts n e) = style e.
Proof.
  intros H. unfold touched. rewrite (bool_decide_false _ H).
  by case_bool_decide.
Qed.

(** X8: a banner at index [i] with [i × 100 ≤ 5000] (that is, [i ≤ 50]) is
    shown before it is hidden: its reveal timer fires strictly before its
    hide timer, also at [i = 50] where both are due at the same time; from
    the reveal up to the hide the banner is revealed, after the hide it is
    not.  (The document is a tree, no other timer is pending, and the banner
    is not hidden by its inline style to begin with.) *)
Theorem early_banner_revealed user w i n e :
  queue w = [] → NoDup (document_order (doc w)) →
  flashes w !! i = Some n → (Z.of_nat i * 100 ≤ 5000)%Z →
  store (doc w) !! n = Some e → style e !! "display" ≠ Some "none" →
  (i ≤ 50)%nat ∧
  ∃ ks kh,
    queue (exec onDOMContentLoaded user w) !! ks =
      Some (Timer (now w + Z.of_nat i * 100) (RevealFlash n)) ∧
    queue (exec onDOMContentLoaded user w) !! kh =
      Some (Timer (now w + 5000) (HideFlash n)) ∧
    ks < kh ∧
    (∀ k, ks < k → (k ≤ kh)%nat → revealed (doc (page_after k user w)) n) ∧
    (∀ k, kh < k → ¬ revealed (doc (page_after k user w)) n).
Proof.
  intros Hq Hnd Hi Hle He Hdisp. split; [lia|].
  assert (Hbefore : before (Timer (now w + Z.of_nat i * 100) (RevealFlash n))
                      (Timer (now w + 5000) (HideFlash n))
                      (queue (exec onDOMContentLoaded user w))).
  { rewrite onDOMContentLoaded_spec. cbn [with_queue queue]. rewrite Hq.
    apply (schedule_before (now w) 0 (flashes w) i n []); [constructor|done|done]. }
  destruct Hbefore as (ks & kh & Hlt & Hks & Hkh).
  exists ks, kh. repeat (split; [done|]).
  pose proof (queue_loaded_NoDup user w Hq Hnd) as Hqnd. split.
  - intros k Hk1 Hk2. exists (touched (take k (queue (exec onDOMContentLoaded user w))) n e).
    split; [by rewrite page_after_lookup, He|]. split.
    + apply touched_reveal.
      apply (list_elem_of_fmap_2' handler _
               (Timer (now w + Z.of_nat i * 100) (RevealFlash n))); [|done].
      apply elem_of_take. eauto.
    + rewrite touched_not_hide; [done|].
      intros (t & Ht & Hin)%list_elem_of_fmap.
      apply elem_of_take in Hin as (p & Hp & Hpk).
      destruct (queue_loaded_inv user w t Hq (list_elem_of_lookup_2 _ _ _ Hp))
        as (j & m & Hj & [-> | ->]); [done|].
      cbn in Ht. injection Ht as <-.
      pose proof (NoDup_lookup _ p kh _ Hqnd Hp Hkh). lia.
  - intros k Hk (e' & He' & _ & Hnone).
    rewrite page_after_lookup, He in He'. injection He' as <-.
    apply Hnone, touched_hide.
    apply (list_elem_of_fmap_2' handler _ (Timer (now w + 5000) (HideFlash n)));
      [|done].
    apply elem_of_take. eauto.
Qed.

Lemma early_banner_revealed_witness :
  (50 ≤ 50)%nat ∧
  ∃ ks kh,
    queue (exec onDOMContentLoaded (answers Null) (banners 52)) !! ks =
      Some (Timer 5000 (RevealFlash 52)) ∧
    queue (exec onDOMContentLoaded (answers Null) (banners 52)) !! kh =
      Some (Timer 5000 (HideFlash 52)) ∧
    ks < kh ∧
    (∀ k, ks < k → (k ≤ kh)%nat →
       revealed (doc (page_after k (answers Null) (banners 52))) 52) ∧
    (∀ k, kh < k → ¬ revealed (doc (page_after k (answers Null) (banners 52))) 52).
Proof.
  apply (early_banner_revealed (answers Null) (banners 52) 50 52
           (el "div" ["alert"] (Some 1) []));
    [ reflexivity | decide_by_compute | by vm_compute | lia | by vm_compute
    | discriminate ].
Defined.

(** *** The script loaded twice *)

Lemma touched_ext ts ts' n e :
  (∀ h, h ∈ handler <$> ts ↔ h ∈ handler <$> ts') →
  touched ts n e = touched ts' n e.
Proof.
  intros H. unfold touched.
  by rewrite (bool_decide_ext _ _ (H (RevealFlash n))),
             (bool_decide_ext _ _ (H (HideFlash n))).
Qed.

Lemma flash_js_twice_loaded user w :
  listeners w = [] →
  exec (flash_js;; flash_js;; dispatchEvent "DOMContentLoaded") user w =
  exec onDOMContentLoaded user
    (exec onDOMContentLoaded user
       (with_listeners (λ _, [("DOMContentLoaded", InitFlashes);
                              ("DOMContentLoaded", InitFlashes)]) w)).
Proof.
  intros Hl. rewrite !exec_bind. unfold flash_js, addEventListener, modify.
  cbn [fst snd].
  replace (with_listeners (λ ls, ls ++ [("DOMContentLoaded", InitFlashes)])
             (with_listeners (λ ls, ls ++ [("DOMContentLoaded", InitFlashes)]) w))
    with (with_listeners (λ _, [("DOMContentLoaded", InitFlashes);
                                ("DOMContentLoaded", InitFlashes)]) w)
    by (unfold with_listeners; cbn [listeners]; by rewrite Hl).
  unfold exec at 1, dispatchEvent. cbn [with_listeners listeners listen_all].
  rewrite !bool_decide_true by done. cbn [listen].
  unfold exec, mbind, script_bind.
  destruct (onDOMContentLoaded user (with_listeners _ w)) as [[] w1].
  cbn [snd]. by destruct (onDOMContentLoaded user w1) as [[] w2].
Qed.

(** X10: loading the script twice is harmless in the end: each banner then
    gets its two timers twice, but once all of them have fired the document
    is the same as with the script loaded once. *)
Theorem flash_js_twice_same_document user w k :
  listeners w = [] → queue w = [] → (4 * length (flashes w) ≤ k)%nat →
  doc (run k user
         (exec (flash_js;; flash_js;; dispatchEvent "DOMContentLoaded") user w)) =
  doc (page_after k user w).
Proof.
  intros Hl Hq Hk. rewrite (flash_js_twice_loaded user w Hl).
  set (w0 := with_listeners _ w).
  set (w1 := exec onDOMContentLoaded user w0).
  assert (Hw0 : doc w0 = doc w ∧ now w0 = now w ∧ queue w0 = [] ∧
                flashes w0 = flashes w) by done.
  destruct Hw0 as (Hd0 & Hn0 & Hq0 & Hf0).
  destruct (loaded_frame user w0) as (Hd1 & _ & Hn1 & _). fold w1 in Hd1, Hn1.
  assert (Hf1 : flashes w1 = flashes w) by (unfold flashes; by rewrite Hd1, Hd0).
  destruct (loaded_frame user w1) as (Hd2 & _ & _ & _).
  assert (Hmem : ∀ t, t ∈ queue (exec onDOMContentLoaded user w1) ↔
                      t ∈ queue (exec onDOMContentLoaded user w)).
  { intros t.
    assert (H1 : t ∈ queue w1 ↔
              t ∈ [] ∨ ∃ j n, flashes w !! j = Some n ∧
                (t = Timer (now w + timeout_ms (Z.of_nat j * 100)) (RevealFlash n) ∨
                 t = Timer (now w + 5000) (HideFlash n))).
    { unfold w1. by rewrite (elem_of_queue_loaded user w0), Hq0, Hf0, Hn0. }
    rewrite (elem_of_queue_loaded user w1), (elem_of_queue_loaded user w).
    rewrite H1, Hf1, Hn1, Hn0, Hq, elem_of_nil. tauto. }
  pose proof (queue_loaded_length user w1) as Hl2.
  pose proof (queue_loaded_length user w0) as Hl1. fold w1 in Hl1.
  pose proof (queue_loaded_length user w) as Hl0.
  rewrite Hq in Hl0. rewrite Hq0, Hf0 in Hl1. rewrite Hf1 in Hl2.
  cbn [length Nat.add] in *.
  rewrite run_spec, page_after_spec. cbn [doc].
  rewrite !take_ge by lia. rewrite Hd2, Hd1, Hd0. f_equal.
  apply map_eq. intros n. rewrite !fired_lookup.
  destruct (store (doc w) !! n) as [e|]; [|done]. cbn. f_equal.
  apply touched_ext. intros h. rewrite !list_elem_of_fmap.
  split; intros (t & -> & Ht); exists t; (split; [done|]); by apply Hmem.
Qed.

Lemma flash_js_twice_same_document_witness :
  doc (run 12 (answers Null)
         (exec (flash_js;; flash_js;; dispatchEvent "DOMContentLoaded")
            (answers Null) flash_page)) =
  doc (page_after 12 (answers Null) flash_page).
Proof.
  apply (flash_js_twice_same_document (answers Null) flash_page 12);
    [reflexivity | reflexivity | vm_compute; lia].
Defined.

End FlashExtras.
